(** * extract_plant_apps.py: the report builder, embedded and verified

    The script reads [plant_search_results.json], annotates every record
    of [all_plant_apps] with its membership in [top_10_results], sorts the
    rows, writes [plant_apps_analysis.csv] and prints a summary.

    The embedding follows the script line by line.  Values are the Python
    objects [json.load] returns; exceptions are results; the two files and
    the console are an explicit world threaded through a small
    state-and-exception monad. *)

From Stdlib Require Import ZArith List String Ascii Bool Lia Sorted Permutation.
From Stdlib Require Import Floats.SpecFloat DecimalString.
From stdpp Require Import base gmap strings.
Import ListNotations.
Local Open Scope string_scope.
Local Open Scope list_scope.

(** ** Python values produced by [json.load] *)

(** A [string] is a Python [str]; one [ascii] stands for one character.
    A float is an IEEE 754 binary64 value ([spec_float] at precision 53),
    a dict is the list of its items in insertion order, with keys that
    differ from one another. *)
#[warnings="-register-all"] Inductive json : Type :=
  | JNull
  | JBool (b : bool)
  | JInt (z : Z)
  | JFloat (f : spec_float)
  | JStr (s : string)
  | JList (l : list json)
  | JObj (items : list (string * json)).

(** The exceptions the script can raise. *)
Inductive exn : Type :=
  | KeyError (k : string)
  | TypeError
  | ValueError
  | OverflowError
  | AttributeError
  | FileNotFoundError
  | JSONDecodeError.

Inductive result (A : Type) : Type :=
  | Ok (a : A)
  | Raise (e : exn).
Arguments Ok {A} a.
Arguments Raise {A} e.

#[export] Instance result_ret : MRet result := fun A a => Ok a.
#[export] Instance result_bind : MBind result := fun A B k m =>
  match m with
  | Ok a => k a
  | Raise e => Raise e
  end.

(** ** The builtins the script calls *)

(** [bool(v)]: what [if v] tests. *)
Definition py_truthy (v : json) : bool :=
  match v with
  | JNull => false
  | JBool b => b
  | JInt z => negb (Z.eqb z 0)
  | JFloat f => negb (SFeqb f (S754_zero false))
  | JStr s => negb (String.eqb s "")
  | JList l => match l with [] => false | _ => true end
  | JObj items => match items with [] => false | _ => true end
  end.

(** [len(v)]. *)
Definition py_len (v : json) : result nat :=
  match v with
  | JStr s => Ok (String.length s)
  | JList l => Ok (List.length l)
  | JObj items => Ok (List.length items)
  | _ => Raise TypeError
  end.

(** The characters of a string, each as a string of length one. *)
Fixpoint chars (s : string) : list string :=
  match s with
  | EmptyString => []
  | String c s' => String c EmptyString :: chars s'
  end.

(** The elements [for x in v] visits: the items of a list, the keys of a
    dict, the characters of a string. *)
Definition py_iter (v : json) : result (list json) :=
  match v with
  | JList l => Ok l
  | JObj items => Ok (map (fun kv => JStr (fst kv)) items)
  | JStr s => Ok (map JStr (chars s))
  | _ => Raise TypeError
  end.

Fixpoint lookup_key (k : string) (items : list (string * json)) : option json :=
  match items with
  | [] => None
  | (k', v) :: rest => if String.eqb k' k then Some v else lookup_key k rest
  end.

(** [v[k]] for a string key [k]. *)
Definition subscript (v : json) (k : string) : result json :=
  match v with
  | JObj items =>
      match lookup_key k items with
      | Some x => Ok x
      | None => Raise (KeyError k)
      end
  | _ => Raise TypeError
  end.

(** [v.get(k, default)]. *)
Definition py_get (v : json) (k : string) (default : json) : result json :=
  match v with
  | JObj items =>
      match lookup_key k items with
      | Some x => Ok x
      | None => Ok default
      end
  | _ => Raise AttributeError
  end.

(** [sep.join(v)]: every element visited must be a string. *)
Fixpoint all_strings (l : list json) : result (list string) :=
  match l with
  | [] => Ok []
  | JStr s :: rest => ss ← all_strings rest; Ok (s :: ss)
  | _ :: _ => Raise TypeError
  end.

Definition py_join (sep : string) (v : json) : result string :=
  elems ← py_iter v;
  ss ← all_strings elems;
  Ok (String.concat sep ss).

(** [float(n)] for an [int]: the nearest binary64, ties to even;
    [OverflowError] when that is out of range. *)
Definition float_of_int (z : Z) : result spec_float :=
  match binary_normalize 53 1024 z 0 false with
  | S754_infinity _ => Raise OverflowError
  | f => Ok f
  end.

Definition string_of_Z (z : Z) : string := NilZero.string_of_int (Z.to_int z).

(** Three builtins are kept as an interface: the decimal text of a float
    ([repr]), the quoted text of a string ([repr]) and the parse of a
    string by [float] ([None] is [ValueError]). *)
Class Builtins : Type := {
  float_repr : spec_float -> string;
  str_repr : string -> string;
  float_of_str : string -> option spec_float
}.

(** The interface in the examples below, none of which shows a float,
    quotes a string or parses one. *)
Definition plain_builtins : Builtins :=
  {| float_repr := fun _ => "";
     str_repr := fun s => s;
     float_of_str := fun _ => None |}.

Section Script.

Context {py : Builtins}.

Fixpoint py_repr (v : json) : string :=
  match v with
  | JNull => "None"
  | JBool true => "True"
  | JBool false => "False"
  | JInt z => string_of_Z z
  | JFloat f => float_repr f
  | JStr s => str_repr s
  | JList l => "[" +:+ String.concat ", " (map py_repr l) +:+ "]"
  | JObj items =>
      "{" +:+ String.concat ", "
                (map (fun kv => str_repr (fst kv) +:+ ": " +:+ py_repr (snd kv)) items)
          +:+ "}"
  end.

(** [str(v)]. *)
Definition py_str (v : json) : string :=
  match v with
  | JStr s => s
  | _ => py_repr v
  end.

(** [float(v)]. *)
Definition py_float (v : json) : result spec_float :=
  match v with
  | JFloat f => Ok f
  | JInt z => float_of_int z
  | JBool b => float_of_int (if b then 1 else 0)
  | JStr s =>
      match float_of_str s with
      | Some f => Ok f
      | None => Raise ValueError
      end
  | _ => Raise TypeError
  end.

(** [v[:200]]. *)
Definition py_slice_200 (v : json) : result json :=
  match v with
  | JStr s => Ok (JStr (substring 0 200 s))
  | JList l => Ok (JList (firstn 200 l))
  | _ => Raise TypeError
  end.

(** [v + s] for a string literal [s]. *)
Definition py_add_str (v : json) (s : string) : result json :=
  match v with
  | JStr a => Ok (JStr (a +:+ s))
  | _ => Raise TypeError
  end.

(** ** Lines 17-18: the set of top 10 ids *)

Definition build_top_10_ids (top_10_results : list json) : result (gset string) :=
  ids ← mapM (fun app => i ← subscript app "id"; Ok (py_str i)) top_10_results;
  Ok (list_to_set ids).

(** ** Lines 23-51: one row per app *)

(** A row is the dict appended to [csv_data]; its keys are fixed. *)
Record row : Type := {
  app_id : json;
  app_name : json;
  category : json;
  rating : json;
  one_liner : json;
  in_top_10 : string;
  matched_keywords : string;
  relevance_score : json;
  match_reason : json;
  description_preview : json
}.

(** The three variables the inner loop assigns. *)
Definition match_fields : Type := (string * json * json)%type.

(** Lines 27-29: their values before the loop. *)
Definition no_match : match_fields := ("", JStr "", JStr "").

(** Lines 35-37: the assignments made at a matching entry. *)
Definition copy_fields (top_app : json) : result match_fields :=
  kw ← py_get top_app "matched_keywords" (JList []);
  mk ← py_join ", " kw;
  rs ← py_get top_app "relevance_score" (JStr "");
  mr ← py_get top_app "match_reason" (JStr "");
  Ok (mk, rs, mr).

(** Lines 33-38: the scan, leaving at the first match ([break]). *)
Fixpoint scan (top_10_results : list json) (app : json) (vars : match_fields)
  : result match_fields :=
  match top_10_results with
  | [] => Ok vars
  | top_app :: rest =>
      tid ← subscript top_app "id";
      aid ← subscript app "id";
      if String.eqb (py_str tid) (py_str aid) then copy_fields top_app
      else scan rest app vars
  end.

(** Line 50. *)
Definition preview (app : json) : result json :=
  d ← subscript app "description";
  n ← py_len d;
  if Nat.ltb 200 n then
    d1 ← subscript app "description";
    p ← py_slice_200 d1;
    py_add_str p "..."
  else subscript app "description".

(** Lines 24-51: the body of the outer loop. *)
Definition annotate (top_10_results : list json) (top_10_ids : gset string)
    (app : json) : result row :=
  i ← subscript app "id";
  let is_in_top_10 := bool_decide (py_str i ∈ top_10_ids) in
  vars ← (if is_in_top_10 then scan top_10_results app no_match else Ok no_match);
  a_id ← subscript app "id";
  a_name ← subscript app "name";
  a_category ← subscript app "category";
  a_rating ← subscript app "rating";
  a_one_liner ← subscript app "one_liner";
  a_preview ← preview app;
  Ok {| app_id := a_id;
        app_name := a_name;
        category := a_category;
        rating := a_rating;
        one_liner := a_one_liner;
        in_top_10 := if is_in_top_10 then "YES" else "NO";
        matched_keywords := vars.1.1;
        relevance_score := vars.1.2;
        match_reason := vars.2;
        description_preview := a_preview |}.

(** ** Lines 53-54: the sort *)

(** The key of a row.  The second component is a float or the int [0];
    the int [0] compares with a float as [+0.0] does and is kept as
    that float. *)
Definition sort_key (x : row) : result (bool * spec_float) :=
  k ← (if py_truthy (rating x)
       then f ← py_float (rating x); Ok (SFopp f)
       else Ok (S754_zero false));
  Ok (String.eqb (in_top_10 x) "NO", k).

(** [a < b] on keys: tuples compare at their first unequal component. *)
Definition key_lt (a b : bool * spec_float) : bool :=
  if Bool.eqb a.1 b.1
  then (if SFeqb a.2 b.2 then false else SFltb a.2 b.2)
  else negb a.1 && b.1.

(** A row with its key. *)
Definition keyed : Type := ((bool * spec_float) * row)%type.

(** [list.sort] compares with [<] only.  Below 64 elements CPython sorts
    the list as one run: [count_run] takes the longest run the list starts
    with, not descending or strictly descending (the latter is reversed),
    and [binarysort] inserts the other elements one by one, from the left,
    at the place a binary search finds. *)
Fixpoint run_ascending (prev : keyed) (l : list keyed) : list keyed * list keyed :=
  match l with
  | [] => ([], [])
  | x :: l' =>
      if key_lt x.1 prev.1 then ([], l)
      else let (run, rest) := run_ascending x l' in (x :: run, rest)
  end.

Fixpoint run_descending (prev : keyed) (l : list keyed) : list keyed * list keyed :=
  match l with
  | [] => ([], [])
  | x :: l' =>
      if key_lt x.1 prev.1
      then let (run, rest) := run_descending x l' in (x :: run, rest)
      else ([], l)
  end.

(** The first run, in ascending order, and the elements behind it. *)
Definition count_run (l : list keyed) : list keyed * list keyed :=
  match l with
  | [] => ([], [])
  | x :: l' =>
      match l' with
      | [] => ([x], [])
      | y :: l'' =>
          if key_lt y.1 x.1
          then let (run, rest) := run_descending y l'' in (rev (x :: y :: run), rest)
          else let (run, rest) := run_ascending y l'' in (x :: y :: run, rest)
      end
  end.

(** The binary search of [binarysort] between the indices [l] and [r]:
    [r] moves to the middle when the pivot is smaller than the element
    there, [l] moves behind the middle otherwise.  The search ends within
    [r - l] rounds. *)
Fixpoint bsearch (fuel : nat) (pivot : keyed) (acc : list keyed) (l r : nat) : nat :=
  match fuel with
  | 0 => l
  | S fuel' =>
      if Nat.ltb l r then
        let p := l + (r - l) / 2 in
        match nth_error acc p with
        | Some y =>
            if key_lt pivot.1 y.1 then bsearch fuel' pivot acc l p
            else bsearch fuel' pivot acc (S p) r
        | None => l
        end
      else l
  end.

Definition binary_insert (acc : list keyed) (pivot : keyed) : list keyed :=
  let i := bsearch (List.length acc) pivot acc 0 (List.length acc) in
  firstn i acc ++ pivot :: skipn i acc.

Definition binary_sort (l : list keyed) : list keyed :=
  let (run, rest) := count_run l in fold_left binary_insert rest run.

(** The stable sorted list, built by insertion: an element is moved
    behind the later elements that are smaller and no further. *)
Fixpoint insert_row (x : keyed) (l : list keyed) : list keyed :=
  match l with
  | [] => [x]
  | y :: l' => if key_lt y.1 x.1 then y :: insert_row x l' else x :: y :: l'
  end.

Definition stable_sort (l : list keyed) : list keyed :=
  fold_right insert_row [] l.

(** [f] is NaN. *)
Definition is_nan (f : spec_float) : bool :=
  match f with S754_nan => true | _ => false end.

(** The key is not NaN. *)
Definition good (a : keyed) : Prop := is_nan a.1.2 = false.

(** From 64 elements on [list.sort] cuts the list into runs and merges
    them.  The merge is kept as an interface with the two facts CPython
    gives for it: the elements are moved and none is lost or made, whatever
    [<] answers; and on keys that [<] orders (no NaN among them) the result
    is the stable sorted list. *)
Class ListSort : Type := {
  timsort : list keyed -> list keyed;
  timsort_perm : forall l, Permutation (timsort l) l;
  timsort_stable : forall l, Forall good l -> timsort l = stable_sort l
}.

(** The interface in the examples below, all of fewer than 64 rows. *)
Definition stable_list_sort : ListSort.
Proof.
  refine {| timsort := stable_sort; timsort_stable := fun l _ => eq_refl |}.
  induction l as [|x l IH]; simpl; [constructor|].
  transitivity (x :: stable_sort l); [|constructor; exact IH].
  generalize (stable_sort l). clear. intros s.
  induction s as [|y s IHs]; simpl; [reflexivity|].
  destruct (key_lt y.1 x.1); [|reflexivity].
  rewrite IHs. apply perm_swap.
Defined.

Context {ls : ListSort}.

(** [list.sort]: the run-and-insert sort below 64 elements, the merge of
    runs from 64 elements on. *)
Definition list_sort (l : list keyed) : list keyed :=
  if Nat.ltb (List.length l) 64 then binary_sort l else timsort l.

(** The keys are computed first, one call per row, then the rows are
    ordered by them. *)
Definition sort_rows (csv_data : list row) : result (list row) :=
  decorated ← mapM (fun x => k ← sort_key x; Ok (k, x)) csv_data;
  Ok (map snd (list_sort decorated)).

(** ** The files and the console *)

(** What [open] and [json.load] find at the input path. *)
Inductive input_state : Type :=
  | Absent
  | Unparsable
  | Document (data : json).

(** A record of the output file: the header or one data row.  The text
    the csv module produces for a record is not modelled, and neither is
    a failure of the write itself (a full disk, a string the utf-8 encoder
    rejects): the strings of this development are sequences of 8-bit
    characters, which the encoder accepts. *)
Inductive csv_record : Type :=
  | Header (names : list string)
  | Data (r : row).

(** One constructor per [print] call, with the values it interpolates. *)
Inductive line : Type :=
  | Total_found (n : nat)
  | Top_10_results (n : nat)
  | Csv_created
  | Apps_in_top_10 (n : nat)
  | Apps_not_in_top_10 (n : nat)
  | Banner
  | App_name (rank : nat) (name : json)
  | Category_rating (c r : json)
  | Keywords (k : string)
  | One_liner (o : json)
  | Blank.

Record world : Type := {
  input_file : input_state;
  output_file : option (list csv_record);
  console : list line
}.

(** A command turns a world into a world and a value or an exception. *)
Definition M (A : Type) : Type := world -> world * result A.

#[export] Instance M_ret : MRet M := fun A a w => (w, Ok a).
#[export] Instance M_bind : MBind M := fun A B k m w =>
  match m w with
  | (w', Ok a) => k a w'
  | (w', Raise e) => (w', Raise e)
  end.

Definition lift {A : Type} (r : result A) : M A := fun w => (w, r).

(** [print]: one more line on the console.  A console that rejects the
    text is not modelled. *)
Definition print (l : line) : M unit := fun w =>
  ({| input_file := input_file w;
      output_file := output_file w;
      console := console w ++ [l] |}, Ok tt).

(** Lines 7-8: [open] for reading, then [json.load]. *)
Definition json_load : M json := fun w =>
  match input_file w with
  | Absent => (w, Raise FileNotFoundError)
  | Unparsable => (w, Raise JSONDecodeError)
  | Document data => (w, Ok data)
  end.

(** Line 57: [open] for writing creates the file or empties it. *)
Definition open_w : M unit := fun w =>
  ({| input_file := input_file w;
      output_file := Some [];
      console := console w |}, Ok tt).

(** Lines 62-63: the records are appended to the open file. *)
Definition write_records (rs : list csv_record) : M unit := fun w =>
  ({| input_file := input_file w;
      output_file := Some (default [] (output_file w) ++ rs);
      console := console w |}, Ok tt).

Definition fieldnames : list string :=
  ["app_id"; "app_name"; "category"; "rating"; "one_liner"; "in_top_10";
   "matched_keywords"; "relevance_score"; "match_reason"; "description_preview"].

Definition is_yes (x : row) : bool := String.eqb (in_top_10 x) "YES".
Definition is_no (x : row) : bool := String.eqb (in_top_10 x) "NO".

(** Lines 72-76: the five [print] calls for the row at index [i]. *)
Definition print_app (i : nat) (app : row) : M unit :=
  print (App_name (i + 1) (app_name app));;
  print (Category_rating (category app) (rating app));;
  print (Keywords (matched_keywords app));;
  print (One_liner (one_liner app));;
  print Blank.

(** Line 71: the loop over [enumerate(...)], from index [i] on. *)
Fixpoint print_apps (i : nat) (apps : list row) : M unit :=
  match apps with
  | [] => mret tt
  | app :: rest => print_app i app;; print_apps (S i) rest
  end.

(** ** The script *)

Definition main : M unit :=
  data ← json_load;
  all_plant_apps ← lift (subscript data "all_plant_apps");
  top_10_results ← lift (subscript data "top_10_results");
  n_all ← lift (py_len all_plant_apps);
  print (Total_found n_all);;
  n_top ← lift (py_len top_10_results);
  print (Top_10_results n_top);;
  tops ← lift (py_iter top_10_results);
  top_10_ids ← lift (build_top_10_ids tops);
  apps ← lift (py_iter all_plant_apps);
  csv_data ← lift (mapM (annotate tops top_10_ids) apps);
  sorted ← lift (sort_rows csv_data);
  open_w;;
  write_records [Header fieldnames];;
  write_records (map Data sorted);;
  print Csv_created;;
  print (Apps_in_top_10 (List.length (List.filter is_yes sorted)));;
  print (Apps_not_in_top_10 (List.length (List.filter is_no sorted)));;
  print Banner;;
  print_apps 0 (firstn 10 (List.filter is_yes sorted)).

(** ** Vocabulary of the properties *)

(** The elements of the collection stored under key [k] of the input. *)
Definition loaded (w : world) (k : string) : result (list json) :=
  match input_file w with
  | Absent => Raise FileNotFoundError
  | Unparsable => Raise JSONDecodeError
  | Document data => v ← subscript data k; py_iter v
  end.

(** The data rows of the output file, in file order. *)
Definition data_rows (w : world) : list row :=
  flat_map (fun c => match c with Data r => [r] | Header _ => [] end)
           (default [] (output_file w)).

(** Some entry of [tops] has an id whose [str] is that of [i]. *)
Definition id_in_top (tops : list json) (i : json) : Prop :=
  exists top tid, In top tops /\ subscript top "id" = Ok tid /\ py_str tid = py_str i.

(** [top] is the first entry of [tops] whose id has the [str] of [i]. *)
Definition first_match (tops : list json) (i : json) (top : json) : Prop :=
  exists pre post tid,
    tops = pre ++ top :: post /\
    subscript top "id" = Ok tid /\ py_str tid = py_str i /\
    forall t u, In t pre -> subscript t "id" = Ok u -> py_str u <> py_str i.

(** The rating a row is ordered by: [float(rating)], or 0 for a falsy one. *)
Definition eff_rating (x : row) : result spec_float :=
  if py_truthy (rating x) then py_float (rating x) else Ok (S754_zero false).

(** The rating of the row is NaN. *)
Definition nan_rating (x : row) : bool :=
  match eff_rating x with
  | Ok S754_nan => true
  | _ => false
  end.

(** [x] stands before [y] in [l]. *)
Definition before (l : list row) (x y : row) : Prop :=
  exists l1 l2 l3, l = l1 ++ x :: l2 ++ y :: l3.

(** No "NO" row stands before a "YES" row. *)
Definition partitioned (out : list row) : Prop :=
  forall x y, before out x y -> in_top_10 x = "NO" -> in_top_10 y <> "YES".

(** Of two rows of one group the later has no greater rating. *)
Definition rating_nonincreasing (out : list row) : Prop :=
  forall x y fx fy, before out x y -> in_top_10 x = in_top_10 y ->
    eff_rating x = Ok fx -> eff_rating y = Ok fy -> SFleb fy fx = true.

(** A row with a falsy rating is followed, in its group, by such rows only. *)
Definition falsy_last (out : list row) : Prop :=
  forall x y, before out x y -> in_top_10 x = in_top_10 y ->
    py_truthy (rating x) = false -> py_truthy (rating y) = false.

(** A row with a falsy rating is followed, in its group, by no row of
    positive rating. *)
Definition falsy_after_positive (out : list row) : Prop :=
  forall x y fy, before out x y -> in_top_10 x = in_top_10 y ->
    py_truthy (rating x) = false -> eff_rating y = Ok fy ->
    SFleb fy (S754_zero false) = true.

(** Same membership flag and equal rating key. *)
Definition same_class (x0 x : row) : bool :=
  String.eqb (in_top_10 x) (in_top_10 x0) &&
  match eff_rating x, eff_rating x0 with
  | Ok a, Ok b => SFeqb a b
  | _, _ => false
  end.

(** The console lines of the listing, for rows numbered from [i]. *)
Fixpoint listing (i : nat) (apps : list row) : list line :=
  match apps with
  | [] => []
  | app :: rest =>
      [App_name (i + 1) (app_name app);
       Category_rating (category app) (rating app);
       Keywords (matched_keywords app);
       One_liner (one_liner app);
       Blank] ++ listing (S i) rest
  end.

(** Lines 10-51 on the input of [w]: the rows in the order of their records. *)
Definition source_rows (w : world) : result (list row) :=
  apps ← loaded w "all_plant_apps";
  tops ← loaded w "top_10_results";
  ids ← build_top_10_ids tops;
  mapM (annotate tops ids) apps.

(** No row has a NaN rating. *)
Definition nan_free (l : list row) : bool :=
  forallb (fun x => negb (nan_rating x)) l.

(** The membership flag of a row says whether its id is in the top 10. *)
Definition flag_correct (tops : list json) (x : row) : Prop :=
  (in_top_10 x = "YES" <-> id_in_top tops (app_id x)) /\
  (in_top_10 x = "NO" <-> ~ id_in_top tops (app_id x)).

(** The three match fields of a row are those of the first matching entry,
    or empty. *)
Definition match_correct (tops : list json) (x : row) : Prop :=
  (in_top_10 x = "YES" ->
   exists top kw,
     first_match tops (app_id x) top /\
     py_get top "matched_keywords" (JList []) = Ok kw /\
     py_join ", " kw = Ok (matched_keywords x) /\
     (forall ks, kw = JList (map JStr ks) -> matched_keywords x = String.concat ", " ks) /\
     py_get top "relevance_score" (JStr "") = Ok (relevance_score x) /\
     py_get top "match_reason" (JStr "") = Ok (match_reason x)) /\
  (in_top_10 x = "NO" ->
   matched_keywords x = "" /\ relevance_score x = JStr "" /\ match_reason x = JStr "").

(** The preview of a row is the description, cut at 200 characters. *)
Definition preview_correct (app : json) (x : row) : Prop :=
  exists d n,
    subscript app "description" = Ok d /\ py_len d = Ok n /\
    (n <= 200 -> description_preview x = d) /\
    (200 < n ->
     exists s rest, d = JStr s /\
       s = substring 0 200 s +:+ rest /\
       description_preview x = JStr (substring 0 200 s +:+ "...") /\
       String.length (substring 0 200 s) = 200).

(** The fields every record of [all_plant_apps] is read at. *)
Definition app_fields : list string :=
  ["id"; "name"; "category"; "rating"; "one_liner"; "description"].

(** [v] is a dict without key [k]. *)
Definition lacks (v : json) (k : string) : bool :=
  match v with
  | JObj items =>
      match lookup_key k items with
      | None => true
      | Some _ => false
      end
  | _ => false
  end.

(** The fields an entry of [top_10_results] is read at with [get]. *)
Definition top_fields : list string :=
  ["matched_keywords"; "relevance_score"; "match_reason"].

(** Some record lacks a field it is subscripted at. *)
Definition missing_field (apps tops : list json) : bool :=
  existsb (fun app => existsb (lacks app) app_fields) apps ||
  existsb (fun top => lacks top "id") tops.

(** Some entry of the top 10 lacks a field it is read at with [get]. *)
Definition missing_top_field (tops : list json) : bool :=
  existsb (fun top => existsb (lacks top) top_fields) tops.

(** Loading fails: no file, no JSON, or one of the two keys cannot be read. *)
Definition load_fails (w : world) : bool :=
  match input_file w with
  | Absent | Unparsable => true
  | Document data =>
      match subscript data "all_plant_apps", subscript data "top_10_results" with
      | Ok _, Ok _ => false
      | _, _ => true
      end
  end.

(** A rating the sort can order: falsy, or accepted by [float]. *)
Definition valid_rating (r : json) : bool :=
  negb (py_truthy r) ||
  match py_float r with
  | Ok _ => true
  | Raise _ => false
  end.

(** [v] is a string. *)
Definition is_str (v : json) : bool :=
  match v with JStr _ => true | _ => false end.

(** A record of the shape section 6 of the specification gives to the
    entries of [all_plant_apps]: a dict with the six keys, a description
    that is a string and a rating the sort can order. *)
Definition valid_app (app : json) : bool :=
  match app with
  | JObj items =>
      match lookup_key "id" items, lookup_key "name" items,
            lookup_key "category" items, lookup_key "rating" items,
            lookup_key "one_liner" items, lookup_key "description" items with
      | Some _, Some _, Some _, Some r, Some _, Some (JStr _) => valid_rating r
      | _, _, _, _, _, _ => false
      end
  | _ => false
  end.

(** An entry of the shape given to the entries of [top_10_results]: a dict
    with an id whose keywords, when present, are a list of strings. *)
Definition valid_top (top : json) : bool :=
  match top with
  | JObj items =>
      match lookup_key "id" items, lookup_key "matched_keywords" items with
      | Some _, None => true
      | Some _, Some (JList l) => forallb is_str l
      | _, _ => false
      end
  | _ => false
  end.

(** The input file holds a document of the shape of section 6. *)
Definition valid_input (w : world) : bool :=
  match input_file w with
  | Document (JObj items) =>
      match lookup_key "all_plant_apps" items, lookup_key "top_10_results" items with
      | Some (JList apps), Some (JList tops) =>
          forallb valid_app apps && forallb valid_top tops
      | _, _ => false
      end
  | _ => false
  end.

(** The run ends with an exception. *)
Definition halts (w : world) : Prop := exists w' e, main w = (w', Raise e).

(** The rows of [l] whose membership flag is [flag], in the order of [l]. *)
Definition rows_flagged (flag : string) (l : list row) : list row :=
  List.filter (fun x => bool_decide (in_top_10 x = flag)) l.

(** [v] with the key [k] set to [d], if [v] is a dict without [k]. *)
Definition setdefault (k : string) (d : json) (v : json) : json :=
  match v with
  | JObj items =>
      match lookup_key k items with
      | None => JObj (items ++ [(k, d)])
      | Some _ => v
      end
  | _ => v
  end.

(** An entry of the top 10 with the defaults of lines 35-37 written into
    it where it lacks matched_keywords, relevance_score or match_reason. *)
Definition with_defaults (top : json) : json :=
  setdefault "match_reason" (JStr "")
    (setdefault "relevance_score" (JStr "")
       (setdefault "matched_keywords" (JList []) top)).

(** Two runs end alike: the same value or exception, the same output file
    and the same console. *)
Definition same_outcome (a b : world * result unit) : Prop :=
  a.2 = b.2 /\ output_file a.1 = output_file b.1 /\ console a.1 = console b.1.

(** Lines 7-54 on the input of [w]: the rows line 63 is to write, or the
    exception that keeps the script from getting there. *)
Definition rows_to_write (w : world) : result (list row) :=
  csv_data ← source_rows w; sort_rows csv_data.

(** ** Auxiliary notions of the proofs *)

(** The final world of a run that gets from the load to the end. *)
Definition final_world (w : world) (n_all n_top : nat) (sorted : list row) : world :=
  {| input_file := input_file w;
     output_file := Some (Header fieldnames :: map Data sorted);
     console := console w ++
       [Total_found n_all; Top_10_results n_top; Csv_created;
        Apps_in_top_10 (List.length (List.filter is_yes sorted));
        Apps_not_in_top_10 (List.length (List.filter is_no sorted));
        Banner] ++ listing 0 (firstn 10 (List.filter is_yes sorted)) |}.

(** The world a run stops in that raises after the two counts. *)
Definition stopped_world (w : world) (n_all n_top : nat) : world :=
  {| input_file := input_file w;
     output_file := output_file w;
     console := console w ++ [Total_found n_all; Top_10_results n_top] |}.

(** The end of a run that has loaded [apps] and [tops]. *)
Definition outcome_of (w : world) (apps tops : list json) : world * result unit :=
  match (ids ← build_top_10_ids tops;
         csv_data ← mapM (annotate tops ids) apps;
         sort_rows csv_data) with
  | Ok sorted => (final_world w (List.length apps) (List.length tops) sorted, Ok tt)
  | Raise e => (stopped_world w (List.length apps) (List.length tops), Raise e)
  end.

(** A float that is not NaN, placed in the lexicographic order of triples:
    class by sign and size, then exponent, then mantissa. *)
Definition fkey (f : spec_float) : Z * Z * Z :=
  match f with
  | S754_zero _ => (0, 0, 0)
  | S754_infinity true => (-2, 0, 0)
  | S754_infinity false => (2, 0, 0)
  | S754_nan => (0, 0, 0)
  | S754_finite true m e => (-1, - e, Z.neg m)
  | S754_finite false m e => (1, e, Z.pos m)
  end%Z.

(** The lexicographic order of triples. *)
Definition lt3 (x y : Z * Z * Z) : Prop :=
  (x.1.1 < y.1.1 \/
   (x.1.1 = y.1.1 /\ (x.1.2 < y.1.2 \/ (x.1.2 = y.1.2 /\ x.2 < y.2))))%Z.

Local Ltac float_cases :=
  repeat match goal with
         | s : bool |- _ => destruct s
         end;
  unfold lt3; simpl;
  try change (Pos.compare_cont Eq ?m ?n) with (Pos.compare m n);
  repeat match goal with
         | |- context [Z.compare ?a ?b] => destruct (Z.compare_spec a b)
         | |- context [Pos.compare ?a ?b] => destruct (Pos.compare_spec a b)
         end;
  simpl.

(** [a] may stand before [b]. *)
Definition key_le (a b : keyed) : Prop := key_lt b.1 a.1 = false.

(** A row paired with the key computed for it. *)
Definition keyed_ok (a : keyed) : Prop := sort_key a.2 = Ok a.1.

(** The place of [x] in a sorted list: behind the elements that are not
    greater. *)
Fixpoint insert_pos (x : keyed) (l : list keyed) : nat :=
  match l with
  | [] => 0
  | y :: l' => if key_lt x.1 y.1 then 0 else S (insert_pos x l')
  end.

(** [l] with [x] put at that place. *)
Fixpoint insert_right (x : keyed) (l : list keyed) : list keyed :=
  match l with
  | [] => [x]
  | y :: l' => if key_lt x.1 y.1 then x :: y :: l' else y :: insert_right x l'
  end.

(** ** Further vocabulary: failures, bounds and the text of the console *)

(** The exception the load raises, if it raises: lines 7-12 in order. *)
Definition load_error (w : world) : option exn :=
  match input_file w with
  | Absent => Some FileNotFoundError
  | Unparsable => Some JSONDecodeError
  | Document (JObj items) =>
      match lookup_key "all_plant_apps" items with
      | None => Some (KeyError "all_plant_apps")
      | Some _ =>
          match lookup_key "top_10_results" items with
          | None => Some (KeyError "top_10_results")
          | Some _ => None
          end
      end
  | Document _ => Some TypeError
  end.

(** The rating of the record is truthy and [float] rejects it. *)
Definition unsortable (app : json) : bool :=
  match subscript app "rating" with
  | Ok r => negb (valid_rating r)
  | Raise _ => false
  end.

(** A description line 50 cannot handle: neither a string nor a list or
    dict of at most 200 elements. *)
Definition bad_description (d : json) : bool :=
  match d with
  | JStr _ => false
  | JList l => Nat.ltb 200 (List.length l)
  | JObj items => Nat.ltb 200 (List.length items)
  | _ => true
  end.

(** The description of the record is one line 50 cannot handle. *)
Definition uncuttable (app : json) : bool :=
  match subscript app "description" with
  | Ok d => bad_description d
  | Raise _ => false
  end.

(** Every rating is ordered as a number that is at least 0. *)
Definition nonnegative_ratings (l : list row) : bool :=
  forallb (fun x => match eff_rating x with
                    | Ok f => SFleb (S754_zero false) f
                    | Raise _ => false
                    end) l.

(** A row with a falsy rating is followed, in its group, only by rows
    whose rating is ordered as 0. *)
Definition falsy_then_zero (out : list row) : Prop :=
  forall x y fy, before out x y -> in_top_10 x = in_top_10 y ->
    py_truthy (rating x) = false -> eff_rating y = Ok fy ->
    SFeqb fy (S754_zero false) = true.

(** A row of a run without top 10: flagged "NO", the match fields empty. *)
Definition unmatched (x : row) : Prop :=
  in_top_10 x = "NO" /\ matched_keywords x = "" /\
  relevance_score x = JStr "" /\ match_reason x = JStr "".

(** The fields besides the id are those of the record, as they are. *)
Definition copied (app : json) (x : row) : Prop :=
  subscript app "name" = Ok (app_name x) /\
  subscript app "category" = Ok (category x) /\
  subscript app "rating" = Ok (rating x) /\
  subscript app "one_liner" = Ok (one_liner x).

(** The entry the scan of lines 33-38 stops at for the id [i], if any. *)
Definition first_entry (tops : list json) (i : json) : option json :=
  find (fun top => match subscript top "id" with
                   | Ok tid => String.eqb (py_str tid) (py_str i)
                   | Raise _ => false
                   end) tops.

(** The record matches an entry whose fields lines 35-37 cannot read:
    keywords that are no list of strings (nor a string or a dict). *)
Definition unjoinable (tops : list json) (app : json) : bool :=
  match subscript app "id" with
  | Ok i =>
      match first_entry tops i with
      | Some top =>
          match copy_fields top with
          | Ok _ => false
          | Raise _ => true
          end
      | None => false
      end
  | Raise _ => false
  end.

(** A value that cannot stand for a collection of records: no list, and
    not the empty dict or the empty string either, over which the loops
    run no round. *)
Definition no_collection (v : json) : bool :=
  match v with
  | JList _ => false
  | JObj [] => false
  | JStr EmptyString => false
  | _ => true
  end.

(** One of the two collections of the document is no collection. *)
Definition malformed_collections (w : world) : bool :=
  match input_file w with
  | Document data =>
      match subscript data "all_plant_apps", subscript data "top_10_results" with
      | Ok a, Ok t => no_collection a || no_collection t
      | _, _ => false
      end
  | _ => false
  end.

(** The membership flag is one of the two literals of line 46. *)
Definition flagged (x : row) : Prop := in_top_10 x = "YES" \/ in_top_10 x = "NO".

(** The lines a failed run may have printed: none, or the counts of
    lines 14 and 15. *)
Definition load_lines (l : list line) : Prop :=
  l = [] \/ (exists n, l = [Total_found n]) \/
  (exists n m, l = [Total_found n; Top_10_results m]).





(** ** Example inputs *)

(** The float [m * 2^e]. *)
Definition float_lit (m e : Z) : spec_float := binary_normalize 53 1024 m e false.

Definition app_record (i r : json) (name description : string) : json :=
  JObj [("id", i); ("name", JStr name); ("category", JStr "Lifestyle");
        ("rating", r); ("one_liner", JStr "Care for plants");
        ("description", JStr description)].

(** The row expected for such a record. *)
Definition row_of (i r : json) (name preview flag kw : string) (rs mr : json) : row :=
  {| app_id := i;
     app_name := JStr name;
     category := JStr "Lifestyle";
     rating := r;
     one_liner := JStr "Care for plants";
     in_top_10 := flag;
     matched_keywords := kw;
     relevance_score := rs;
     match_reason := mr;
     description_preview := JStr preview |}.

Definition document (apps tops : list json) : json :=
  JObj [("all_plant_apps", JList apps); ("top_10_results", JList tops)].

Definition world_of (data : json) : world :=
  {| input_file := Document data; output_file := None; console := [] |}.

(** Two apps rated 4.5 and 4.75, the second in the top 10 under the id
    written as a string there and as a number here. *)
Definition app_A : json := app_record (JInt 1) (JFloat (float_lit 9 (-1))) "A" "Identify plants".
Definition app_B : json := app_record (JInt 2) (JFloat (float_lit 19 (-2))) "B" "Water plants".

Definition ex_apps : list json := [app_A; app_B].

Definition ex_tops : list json :=
  [JObj [("id", JStr "2"); ("matched_keywords", JList [JStr "water"; JStr "plant"]);
         ("relevance_score", JFloat (float_lit 7 (-3))); ("match_reason", JStr "x")]].

Definition ex_ids : gset string := {[ "2" ]}.

Definition ex_world : world := world_of (document ex_apps ex_tops).

Definition row_A : row :=
  row_of (JInt 1) (JFloat (float_lit 9 (-1))) "A" "Identify plants" "NO" "" (JStr "") (JStr "").
Definition row_B : row :=
  row_of (JInt 2) (JFloat (float_lit 19 (-2))) "B" "Water plants" "YES" "water, plant"
         (JFloat (float_lit 7 (-3))) (JStr "x").

Definition ex_final : world := final_world ex_world 2 1 [row_B; row_A].

(** Four apps: the two above, a third rated like the first and a fourth
    without a rating value. *)
Definition app_C : json := app_record (JInt 3) (JFloat (float_lit 9 (-1))) "C" "Grow plants".
Definition app_N : json := app_record (JInt 4) JNull "N" "Name plants".

Definition row_C : row :=
  row_of (JInt 3) (JFloat (float_lit 9 (-1))) "C" "Grow plants" "NO" "" (JStr "") (JStr "").
Definition row_N : row :=
  row_of (JInt 4) JNull "N" "Name plants" "NO" "" (JStr "") (JStr "").
Definition row_B_out : row :=
  row_of (JInt 2) (JFloat (float_lit 19 (-2))) "B" "Water plants" "NO" "" (JStr "") (JStr "").

Definition mixed_apps : list json := [app_A; app_N; app_B; app_C].

Definition mixed_world : world := world_of (document mixed_apps ex_tops).

Definition mixed_final : world := final_world mixed_world 4 1 [row_B; row_A; row_C; row_N].

(** Two apps outside the top 10, rated -1.0 and null. *)
Definition neg_apps : list json :=
  [app_record (JInt 1) (JFloat (float_lit (-1) 0)) "A" "Identify plants";
   app_record (JInt 2) JNull "B" "Water plants"].

Definition neg_row : row :=
  row_of (JInt 1) (JFloat (float_lit (-1) 0)) "A" "Identify plants" "NO" "" (JStr "") (JStr "").
Definition null_row : row :=
  row_of (JInt 2) JNull "B" "Water plants" "NO" "" (JStr "") (JStr "").

Definition neg_world : world := world_of (document neg_apps []).

Definition neg_final : world := final_world neg_world 2 0 [null_row; neg_row].

(** A top 10 entry that has an id and nothing else. *)
Definition bare_tops : list json := [JObj [("id", JInt 1)]].

Definition bare_world : world := world_of (document ex_apps bare_tops).

Definition bare_final : world :=
  final_world bare_world 2 1
    [row_of (JInt 1) (JFloat (float_lit 9 (-1))) "A" "Identify plants" "YES" ""
            (JStr "") (JStr "");
     row_B_out].

(** An app without a rating. *)
Definition unrated_apps : list json :=
  [JObj [("id", JInt 1); ("name", JStr "A"); ("category", JStr "Lifestyle");
         ("one_liner", JStr "Care for plants"); ("description", JStr "Identify plants")]].

Definition unrated_world : world := world_of (document unrated_apps ex_tops).

(** A document without [top_10_results], beside an output file of an
    earlier run. *)
Definition keyless_world : world :=
  {| input_file := Document (JObj [("all_plant_apps", JList ex_apps)]);
     output_file := Some [Header fieldnames];
     console := [] |}.

(** An app described in 240 characters. *)
Definition long_description : string := String.concat "" (repeat "plant " 40).

Definition long_apps : list json :=
  [app_record (JInt 1) (JFloat (float_lit 9 (-1))) "A" long_description].

Definition long_world : world := world_of (document long_apps []).

Definition long_final : world :=
  final_world long_world 1 0
    [row_of (JInt 1) (JFloat (float_lit 9 (-1))) "A"
            (substring 0 200 long_description +:+ "...") "NO" "" (JStr "") (JStr "")].

(** Twelve records of the app in the top 10. *)
Definition many_world : world := world_of (document (repeat app_B 12) ex_tops).

Definition many_final : world := final_world many_world 12 1 (repeat row_B 12).

(** An app whose rating is a list. *)
Definition listrated_apps : list json :=
  [app_A; app_record (JInt 5) (JList [JInt 4]) "L" "List plants"].

Definition listrated_world : world := world_of (document listrated_apps ex_tops).

(** An app whose description is null. *)
Definition undescribed_apps : list json :=
  [JObj [("id", JInt 1); ("name", JStr "A"); ("category", JStr "Lifestyle");
         ("rating", JInt 4); ("one_liner", JStr "Care for plants");
         ("description", JNull)]].

Definition undescribed_world : world := world_of (document undescribed_apps ex_tops).

(** No app at all, beside an output file of an earlier run. *)
Definition empty_world : world :=
  {| input_file := Document (document [] ex_tops);
     output_file := Some [Header fieldnames; Data row_A];
     console := [] |}.

(** Apps and no top 10. *)
Definition untopped_world : world := world_of (document ex_apps []).

Definition untopped_final : world := final_world untopped_world 2 0 [row_B_out; row_A].

(** A top 10 entry for the app of id 2 whose keywords are null. *)
Definition nullkw_tops : list json :=
  [JObj [("id", JInt 2); ("matched_keywords", JNull)]].

Definition nullkw_world : world := world_of (document ex_apps nullkw_tops).

(** A document whose [all_plant_apps] is a dict. *)
Definition dict_world : world :=
  world_of (JObj [("all_plant_apps", JObj [("1", app_A)]); ("top_10_results", JList ex_tops)]).

(** The top 10 entry of [bare_tops] with the three defaults written out. *)
Definition filled_tops : list json :=
  [JObj [("id", JInt 1); ("matched_keywords", JList []);
         ("relevance_score", JStr ""); ("match_reason", JStr "")]].

Definition filled_world : world := world_of (document ex_apps filled_tops).

(** Eight apps outside the top 10, rated 1, 1, 1, 1, NaN, 9, 3 and 9
    ([json.load] reads the literal [NaN]). *)
Definition nan_app (i : Z) (r : json) : json := app_record (JInt i) r "P" "Plants".

Definition nan_row (i : Z) (r : json) : row :=
  row_of (JInt i) r "P" "Plants" "NO" "" (JStr "") (JStr "").

Definition nan_apps : list json :=
  [nan_app 1 (JInt 1); nan_app 2 (JInt 1); nan_app 3 (JInt 1); nan_app 4 (JInt 1);
   nan_app 5 (JFloat S754_nan); nan_app 6 (JInt 9); nan_app 7 (JInt 3);
   nan_app 8 (JInt 9)].

Definition nan_rows : list row :=
  [nan_row 1 (JInt 1); nan_row 2 (JInt 1); nan_row 3 (JInt 1); nan_row 4 (JInt 1);
   nan_row 5 (JFloat S754_nan); nan_row 6 (JInt 9); nan_row 7 (JInt 3);
   nan_row 8 (JInt 9)].

Definition nan_world : world := world_of (document nan_apps []).

(** The file of the run: the first seven rows are taken as a run in
    order, since no [<] that involves the NaN key holds, and the eighth is
    put in front of them by the binary search. *)
Definition nan_final : world :=
  {| input_file := input_file nan_world;
     output_file :=
       Some [Header fieldnames;
             Data (nan_row 8 (JInt 9)); Data (nan_row 1 (JInt 1));
             Data (nan_row 2 (JInt 1)); Data (nan_row 3 (JInt 1));
             Data (nan_row 4 (JInt 1)); Data (nan_row 5 (JFloat S754_nan));
             Data (nan_row 6 (JInt 9)); Data (nan_row 7 (JInt 3))];
     console :=
       [Total_found 8; Top_10_results 0; Csv_created;
        Apps_in_top_10 0; Apps_not_in_top_10 8; Banner] |}.

(** Thirteen apps, all but the first in a top 10 of twelve entries. *)
Definition listed_app (i r : Z) (name : string) : json :=
  app_record (JInt i) (JInt r) name "Plants".

Definition listed_top (i : Z) : json :=
  JObj [("id", JInt i); ("matched_keywords", JList [JStr "plant"]);
        ("relevance_score", JInt 1); ("match_reason", JStr "m")].

Definition listed_row (i r : Z) (name : string) : row :=
  row_of (JInt i) (JInt r) name "Plants" "YES" "plant" (JInt 1) (JStr "m").

Definition unlisted_row : row :=
  row_of (JInt 1) (JInt 3) "a" "Plants" "NO" "" (JStr "") (JStr "").

Definition listed_apps : list json :=
  [listed_app 1 3 "a"; listed_app 2 5 "b"; listed_app 3 4 "c"; listed_app 4 5 "d";
   listed_app 5 2 "e"; listed_app 6 4 "f"; listed_app 7 1 "g"; listed_app 8 3 "h";
   listed_app 9 5 "i"; listed_app 10 2 "j"; listed_app 11 4 "k"; listed_app 12 1 "l";
   listed_app 13 3 "m"].

Definition listed_tops : list json :=
  [listed_top 2; listed_top 3; listed_top 4; listed_top 5; listed_top 6; listed_top 7;
   listed_top 8; listed_top 9; listed_top 10; listed_top 11; listed_top 12;
   listed_top 13].

Definition listed_world : world := world_of (document listed_apps listed_tops).

(** The twelve rows flagged "YES", by rating and then by source order. *)
Definition listed_yes : list row :=
  [listed_row 2 5 "b"; listed_row 4 5 "d"; listed_row 9 5 "i";
   listed_row 3 4 "c"; listed_row 6 4 "f"; listed_row 11 4 "k";
   listed_row 8 3 "h"; listed_row 13 3 "m";
   listed_row 5 2 "e"; listed_row 10 2 "j";
   listed_row 7 1 "g"; listed_row 12 1 "l"].

(** The five lines printed for the app at [rank]. *)
Definition listed_block (rank : nat) (r : Z) (name : string) : list line :=
  [App_name rank (JStr name);
   Category_rating (JStr "Lifestyle") (JInt r);
   Keywords "plant";
   One_liner (JStr "Care for plants");
   Blank].

Definition listed_final : world :=
  {| input_file := input_file listed_world;
     output_file := Some (Header fieldnames :: map Data (listed_yes ++ [unlisted_row]));
     console :=
       [Total_found 13; Top_10_results 12; Csv_created;
        Apps_in_top_10 12; Apps_not_in_top_10 1; Banner] ++
       listed_block 1 5 "b" ++ listed_block 2 5 "d" ++ listed_block 3 5 "i" ++
       listed_block 4 4 "c" ++ listed_block 5 4 "f" ++ listed_block 6 4 "k" ++
       listed_block 7 3 "h" ++ listed_block 8 3 "m" ++
       listed_block 9 2 "e" ++ listed_block 10 2 "j" |}.

(** ** Exceptions and commands *)

Lemma result_bind_ok {A B : Type} (m : result A) (k : A -> result B) (b : B) :
  (m ≫= k) = Ok b -> exists a, m = Ok a /\ k a = Ok b.
Proof. destruct m as [a|e]; simpl; intros H; [eauto | discriminate]. Qed.

Lemma M_bind_ok {A B : Type} (m : M A) (k : A -> M B) (w w' : world) (b : B) :
  (m ≫= k) w = (w', Ok b) -> exists a w1, m w = (w1, Ok a) /\ k a w1 = (w', Ok b).
Proof.
  unfold mbind, M_bind. destruct (m w) as [w1 [a|e]]; intros H.
  - eauto.
  - discriminate.
Qed.

Lemma M_bind_raise {A B : Type} (m : M A) (k : A -> M B) (w w' : world) (e : exn) :
  (m ≫= k) w = (w', Raise e) ->
  m w = (w', Raise e) \/ exists a w1, m w = (w1, Ok a) /\ k a w1 = (w', Raise e).
Proof.
  unfold mbind, M_bind. destruct (m w) as [w1 [a|e1]]; intros H.
  - right. eauto.
  - left. injection H as <- <-. reflexivity.
Qed.

Lemma lift_inv {A : Type} (r r' : result A) (w w' : world) :
  lift r w = (w', r') -> w' = w /\ r = r'.
Proof. unfold lift. intros H. injection H as <- <-. auto. Qed.

Lemma print_inv (l : line) (w w' : world) (r : result unit) :
  print l w = (w', r) ->
  r = Ok tt /\ input_file w' = input_file w /\ output_file w' = output_file w /\
  console w' = console w ++ [l].
Proof. unfold print. intros H. injection H as <- <-. auto. Qed.

Lemma print_apps_run (apps : list row) (i : nat) (w : world) :
  print_apps i apps w =
    ({| input_file := input_file w;
        output_file := output_file w;
        console := console w ++ listing i apps |}, Ok tt).
Proof.
  revert i w. induction apps as [|app rest IH]; intros i w; simpl.
  - unfold mret, M_ret. rewrite app_nil_r. destruct w; reflexivity.
  - unfold mbind, M_bind at 1. unfold print_app, print, mbind, M_bind. simpl.
    rewrite IH. simpl. repeat rewrite <- app_assoc. reflexivity.
Qed.

(** ** [mapM] over results *)

Lemma mapM_ok {A B : Type} (f : A -> result B) (l : list A) (k : list B) :
  mapM f l = Ok k <-> Forall2 (fun x y => f x = Ok y) l k.
Proof.
  revert k. induction l as [|x l IH]; intros k; simpl.
  - split.
    + intros H. injection H as <-. constructor.
    + intros H. inversion H. reflexivity.
  - split.
    + intros H. apply result_bind_ok in H as (y & Hy & H).
      apply result_bind_ok in H as (k' & Hk & H).
      injection H as <-. constructor; [exact Hy | apply IH, Hk].
    + intros H. inversion H as [|? y ? k' Hy Hk]; subst.
      rewrite Hy. simpl. apply IH in Hk. rewrite Hk. reflexivity.
Qed.

(** ** What a run computes *)

Lemma py_len_iter (v : json) (n : nat) (l : list json) :
  py_len v = Ok n -> py_iter v = Ok l -> List.length l = n.
Proof.
  destruct v; simpl; intros Hn Hl; try discriminate;
    injection Hn as <-; injection Hl as <-.
  - rewrite length_map. induction s as [|c s IH]; simpl; congruence.
  - reflexivity.
  - apply length_map.
Qed.

Lemma py_iter_len (v : json) (l : list json) :
  py_iter v = Ok l -> py_len v = Ok (List.length l).
Proof.
  destruct v; simpl; intros Hl; try discriminate; injection Hl as <-.
  - rewrite length_map. f_equal. induction s as [|c s IH]; simpl; congruence.
  - reflexivity.
  - rewrite length_map. reflexivity.
Qed.

Lemma main_ok_inv (w w' : world) (u : unit) :
  main w = (w', Ok u) ->
  exists apps tops ids csv_data sorted,
    loaded w "all_plant_apps" = Ok apps /\
    loaded w "top_10_results" = Ok tops /\
    build_top_10_ids tops = Ok ids /\
    mapM (annotate tops ids) apps = Ok csv_data /\
    sort_rows csv_data = Ok sorted /\
    w' = final_world w (List.length apps) (List.length tops) sorted.
Proof.
  unfold main. intros H.
  apply M_bind_ok in H as (data & w1 & Hload & H).
  unfold json_load in Hload.
  destruct (input_file w) as [| |data0] eqn:Hin; try discriminate.
  injection Hload as <- <-.
  apply M_bind_ok in H as (all & w2 & Hall & H). apply lift_inv in Hall as [-> Hall].
  apply M_bind_ok in H as (top & w3 & Htop & H). apply lift_inv in Htop as [-> Htop].
  apply M_bind_ok in H as (n_all & w4 & Hn1 & H). apply lift_inv in Hn1 as [-> Hn1].
  apply M_bind_ok in H as ([] & w5 & Hp1 & H).
  apply M_bind_ok in H as (n_top & w6 & Hn2 & H). apply lift_inv in Hn2 as [-> Hn2].
  apply M_bind_ok in H as ([] & w7 & Hp2 & H).
  apply M_bind_ok in H as (tops & w8 & Htops & H). apply lift_inv in Htops as [-> Htops].
  apply M_bind_ok in H as (ids & w9 & Hids & H). apply lift_inv in Hids as [-> Hids].
  apply M_bind_ok in H as (apps & w10 & Happs & H). apply lift_inv in Happs as [-> Happs].
  apply M_bind_ok in H as (csv_data & w11 & Hcsv & H). apply lift_inv in Hcsv as [-> Hcsv].
  apply M_bind_ok in H as (sorted & w12 & Hsort & H). apply lift_inv in Hsort as [-> Hsort].
  exists apps, tops, ids, csv_data, sorted.
  unfold loaded. rewrite Hin, Hall, Htop. simpl.
  repeat split; try assumption.
  rewrite (py_len_iter _ _ _ Hn1 Happs), (py_len_iter _ _ _ Hn2 Htops).
  unfold print in Hp1. injection Hp1 as <-.
  unfold print in Hp2. injection Hp2 as <-.
  unfold mbind, M_bind, open_w, write_records, print in H. simpl in H.
  rewrite print_apps_run in H. simpl in H.
  injection H as <-. unfold final_world. simpl. rewrite Hin.
  f_equal. repeat rewrite <- app_assoc. reflexivity.
Qed.

Lemma data_rows_final (w : world) (n m : nat) (sorted : list row) :
  data_rows (final_world w n m sorted) = sorted.
Proof.
  unfold data_rows, final_world. simpl.
  induction sorted as [|x l IH]; simpl; congruence.
Qed.

Lemma main_run (w : world) (apps tops : list json) (ids : gset string)
    (csv_data sorted : list row) :
  loaded w "all_plant_apps" = Ok apps ->
  loaded w "top_10_results" = Ok tops ->
  build_top_10_ids tops = Ok ids ->
  mapM (annotate tops ids) apps = Ok csv_data ->
  sort_rows csv_data = Ok sorted ->
  main w = (final_world w (List.length apps) (List.length tops) sorted, Ok tt).
Proof.
  unfold loaded, main. intros Happs Htops Hids Hcsv Hsort.
  destruct (input_file w) as [| |data] eqn:Hin; try discriminate.
  destruct (subscript data "all_plant_apps") as [all|] eqn:Hall; try discriminate.
  destruct (subscript data "top_10_results") as [top|] eqn:Htop; try discriminate.
  simpl in Happs, Htops.
  unfold mbind, M_bind, json_load, lift, print, open_w, write_records.
  rewrite Hin, Hall, Htop, (py_iter_len _ _ Happs), (py_iter_len _ _ Htops).
  rewrite Htops, Hids, Happs, Hcsv, Hsort. simpl.
  rewrite print_apps_run. simpl. unfold final_world. rewrite Hin.
  repeat rewrite <- app_assoc. reflexivity.
Qed.

(** The end of a run whose two collections load. *)
Lemma main_loaded (w : world) (apps tops : list json) :
  loaded w "all_plant_apps" = Ok apps ->
  loaded w "top_10_results" = Ok tops ->
  main w = outcome_of w apps tops.
Proof.
  unfold loaded, main, outcome_of. intros Happs Htops.
  destruct (input_file w) as [| |data] eqn:Hin; try discriminate.
  destruct (subscript data "all_plant_apps") as [all|] eqn:Hall; try discriminate.
  destruct (subscript data "top_10_results") as [top|] eqn:Htop; try discriminate.
  simpl in Happs, Htops.
  unfold mbind, M_bind, json_load, lift, print, open_w, write_records.
  rewrite Hin, Hall, Htop, (py_iter_len _ _ Happs), (py_iter_len _ _ Htops), Htops.
  unfold stopped_world.
  destruct (build_top_10_ids tops) as [ids|e]; simpl;
    [|rewrite <- app_assoc; reflexivity].
  rewrite Happs.
  destruct (mapM (annotate tops ids) apps) as [csv|e]; simpl;
    [|rewrite <- app_assoc; reflexivity].
  destruct (sort_rows csv) as [sorted|e]; simpl;
    [|rewrite <- app_assoc; reflexivity].
  rewrite print_apps_run. simpl. unfold final_world. rewrite Hin.
  repeat rewrite <- app_assoc. reflexivity.
Qed.

(** Whatever is raised is raised before the output file is opened. *)
Lemma main_raise_inv (w w' : world) (e : exn) :
  main w = (w', Raise e) ->
  input_file w' = input_file w /\ output_file w' = output_file w.
Proof.
  unfold main. intros H.
  apply M_bind_raise in H as [H | (data & w1 & Hload & H)].
  { unfold json_load in H.
    destruct (input_file w) eqn:Hin; try discriminate; injection H as <- _; auto. }
  assert (w1 = w) as ->.
  { unfold json_load in Hload.
    destruct (input_file w) eqn:Hin; try discriminate; injection Hload as <- _; auto. }
  clear Hload.
  apply M_bind_raise in H as [H | (all & w2 & Ha & H)];
    [apply lift_inv in H as [-> _]; auto | apply lift_inv in Ha as [-> _]].
  apply M_bind_raise in H as [H | (top & w3 & Ha & H)];
    [apply lift_inv in H as [-> _]; auto | apply lift_inv in Ha as [-> _]].
  apply M_bind_raise in H as [H | (n_all & w4 & Ha & H)];
    [apply lift_inv in H as [-> _]; auto | apply lift_inv in Ha as [-> _]].
  apply M_bind_raise in H as [H | ([] & w5 & Hp1 & H)];
    [apply print_inv in H as [? _]; discriminate |].
  apply print_inv in Hp1 as (_ & Hi1 & Ho1 & _).
  apply M_bind_raise in H as [H | (n_top & w6 & Ha & H)];
    [apply lift_inv in H as [-> _]; auto | apply lift_inv in Ha as [-> _]].
  apply M_bind_raise in H as [H | ([] & w7 & Hp2 & H)];
    [apply print_inv in H as [? _]; discriminate |].
  apply print_inv in Hp2 as (_ & Hi2 & Ho2 & _).
  assert (input_file w7 = input_file w /\ output_file w7 = output_file w) as Hw7
    by (split; congruence).
  clear Hi1 Ho1 Hi2 Ho2.
  apply M_bind_raise in H as [H | (tops & w8 & Ha & H)];
    [apply lift_inv in H as [-> _]; auto | apply lift_inv in Ha as [-> _]].
  apply M_bind_raise in H as [H | (ids & w9 & Ha & H)];
    [apply lift_inv in H as [-> _]; auto | apply lift_inv in Ha as [-> _]].
  apply M_bind_raise in H as [H | (apps & w10 & Ha & H)];
    [apply lift_inv in H as [-> _]; auto | apply lift_inv in Ha as [-> _]].
  apply M_bind_raise in H as [H | (csv_data & w11 & Ha & H)];
    [apply lift_inv in H as [-> _]; auto | apply lift_inv in Ha as [-> _]].
  apply M_bind_raise in H as [H | (sorted & w12 & Ha & H)];
    [apply lift_inv in H as [-> _]; auto | apply lift_inv in Ha as [-> _]].
  exfalso. unfold mbind, M_bind, open_w, write_records, print in H. simpl in H.
  rewrite print_apps_run in H. discriminate.
Qed.

(** ** The order of floats *)

Lemma SFltb_fkey (a b : spec_float) :
  is_nan a = false -> is_nan b = false ->
  (SFltb a b = true <-> lt3 (fkey a) (fkey b)).
Proof.
  intros Ha Hb. unfold SFltb, SFcompare.
  destruct a, b; try discriminate; float_cases;
    split; intros Hab; first [ reflexivity | discriminate | lia ].
Qed.

Lemma SFeqb_fkey (a b : spec_float) :
  is_nan a = false -> is_nan b = false ->
  (SFeqb a b = true <-> fkey a = fkey b).
Proof.
  intros Ha Hb. unfold SFeqb, SFcompare.
  destruct a, b; try discriminate; float_cases;
    split; intros Hab;
    first [ reflexivity | discriminate | congruence
          | injection Hab; intros; lia ].
Qed.

Lemma SFleb_fkey (a b : spec_float) :
  is_nan a = false -> is_nan b = false ->
  (SFleb a b = true <-> ~ lt3 (fkey b) (fkey a)).
Proof.
  intros Ha Hb. unfold SFleb, SFcompare.
  destruct a, b; try discriminate; float_cases;
    split; intros Hab; first [ reflexivity | discriminate | lia ].
Qed.

Lemma SFeqb_not_nan (a b : spec_float) :
  SFeqb a b = true -> is_nan a = false /\ is_nan b = false.
Proof. destruct a, b; simpl; intros H; try discriminate; auto. Qed.

Lemma fkey_opp (a : spec_float) :
  fkey (SFopp a) = (- (fkey a).1.1, - (fkey a).1.2, - (fkey a).2)%Z.
Proof.
  destruct a as [s|s| |s m e]; try destruct s; simpl;
    rewrite ?Z.opp_involutive; reflexivity.
Qed.

Lemma is_nan_opp (a : spec_float) : is_nan (SFopp a) = is_nan a.
Proof. destruct a; reflexivity. Qed.

(** ** The order of keys *)

Lemma key_lt_spec (a b : bool * spec_float) :
  is_nan a.2 = false -> is_nan b.2 = false ->
  (key_lt a b = true <->
   ((a.1 = false /\ b.1 = true) \/ (a.1 = b.1 /\ lt3 (fkey a.2) (fkey b.2)))).
Proof.
  destruct a as [fa ka], b as [fb kb]. simpl. intros Ha Hb. unfold key_lt. simpl.
  destruct fa, fb; simpl.
  - destruct (SFeqb ka kb) eqn:He.
    + apply SFeqb_fkey in He; auto. rewrite He. unfold lt3.
      split; [discriminate | intros [[? ?] | [_ ?]]; [discriminate | lia]].
    + rewrite (SFltb_fkey _ _ Ha Hb). intuition discriminate.
  - intuition discriminate.
  - intuition.
  - destruct (SFeqb ka kb) eqn:He.
    + apply SFeqb_fkey in He; auto. rewrite He. unfold lt3.
      split; [discriminate | intros [[? ?] | [_ ?]]; [discriminate | lia]].
    + rewrite (SFltb_fkey _ _ Ha Hb). intuition discriminate.
Qed.

Lemma key_lt_false (a b : bool * spec_float) :
  is_nan a.2 = false -> is_nan b.2 = false ->
  (key_lt a b = false <->
   ((a.1 = true /\ b.1 = false) \/ (a.1 = b.1 /\ ~ lt3 (fkey a.2) (fkey b.2)))).
Proof.
  intros Ha Hb. pose proof (key_lt_spec a b Ha Hb) as Hs.
  destruct (key_lt a b); destruct a as [[] ka], b as [[] kb]; simpl in *;
    intuition (try discriminate).
Qed.

Lemma key_le_total (a b : keyed) :
  good a -> good b -> key_lt a.1 b.1 = true -> key_le a b.
Proof.
  unfold good, key_le. intros Ha Hb H.
  apply key_lt_spec in H; auto. apply key_lt_false; auto.
  unfold lt3 in *. destruct H as [[? ?] | [? ?]]; [left; auto | right; split; [auto | lia]].
Qed.

Lemma key_le_trans (a b c : keyed) :
  good a -> good b -> good c -> key_le a b -> key_le b c -> key_le a c.
Proof.
  unfold good, key_le. intros Ha Hb Hc Hab Hbc.
  apply key_lt_false in Hab; auto. apply key_lt_false in Hbc; auto.
  apply key_lt_false; auto. unfold lt3 in *.
  destruct a as [[fa ka] ra], b as [[fb kb] rb], c as [[fc kc] rc]. simpl in *.
  destruct fa, fb, fc; intuition (try discriminate); right; split; auto; lia.
Qed.

(** ** The sort *)

Lemma insert_row_perm (x : keyed) (l : list keyed) :
  Permutation (insert_row x l) (x :: l).
Proof.
  induction l as [|y l IH]; simpl; [reflexivity|].
  destruct (key_lt y.1 x.1); [|reflexivity].
  rewrite IH. apply perm_swap.
Qed.

Lemma stable_sort_perm (l : list keyed) : Permutation (stable_sort l) l.
Proof.
  induction l as [|x l IH]; simpl; [reflexivity|].
  rewrite insert_row_perm. constructor. exact IH.
Qed.

Lemma insert_row_sorted (x : keyed) (l : list keyed) :
  good x -> Forall good l ->
  StronglySorted key_le l -> StronglySorted key_le (insert_row x l).
Proof.
  intros Hx Hl Hs. induction Hs as [|y l Hs IH Hy]; simpl.
  - constructor; constructor.
  - inversion Hl as [|? ? Hgy Hgl]; subst.
    destruct (key_lt y.1 x.1) eqn:Hlt.
    + constructor; [apply IH, Hgl|].
      apply (Permutation_Forall (x := x :: l)).
      * symmetry. apply insert_row_perm.
      * constructor; [apply key_le_total; auto | exact Hy].
    + constructor; [constructor; assumption|].
      constructor; [exact Hlt|].
      rewrite List.Forall_forall in Hy, Hgl |- *. intros z Hz.
      apply (key_le_trans x y z); auto.
Qed.

Lemma stable_sort_sorted (l : list keyed) :
  Forall good l -> StronglySorted key_le (stable_sort l).
Proof.
  induction 1 as [|x l Hx Hl IH]; simpl; [constructor|].
  apply insert_row_sorted; auto.
  apply (Permutation_Forall (x := l)); [symmetry; apply stable_sort_perm | exact Hl].
Qed.

Lemma insert_row_filter (P : keyed -> bool) (x : keyed) (l : list keyed) :
  (forall y, In y l -> P x = true -> P y = true -> key_lt y.1 x.1 = false) ->
  List.filter P (insert_row x l) = List.filter P (x :: l).
Proof.
  induction l as [|y l IH]; intros H; [reflexivity|].
  simpl insert_row. destruct (key_lt y.1 x.1) eqn:Hlt; [|reflexivity].
  assert (IH' : List.filter P (insert_row x l) = List.filter P (x :: l)).
  { apply IH. intros z Hz. apply H. right. exact Hz. }
  simpl in *. rewrite IH'.
  destruct (P x) eqn:Hpx; [|reflexivity].
  destruct (P y) eqn:Hpy; [|reflexivity].
  rewrite (H y) in Hlt; auto. discriminate.
Qed.

Lemma stable_sort_filter (P : keyed -> bool) (l : list keyed) :
  (forall x y, In x l -> In y l -> P x = true -> P y = true -> key_lt y.1 x.1 = false) ->
  List.filter P (stable_sort l) = List.filter P l.
Proof.
  induction l as [|x l IH]; intros H; [reflexivity|].
  simpl stable_sort. rewrite insert_row_filter.
  - simpl. rewrite IH; [reflexivity|].
    intros a b Ha Hb. apply H; right; assumption.
  - intros y Hy. apply H; [left; reflexivity|].
    right. apply (Permutation_in y (stable_sort_perm l)). exact Hy.
Qed.

Lemma sorted_before {A : Type} (R : A -> A -> Prop) (l l1 l2 l3 : list A) (x y : A) :
  StronglySorted R l -> l = l1 ++ x :: l2 ++ y :: l3 -> R x y.
Proof.
  intros Hs ->. revert Hs. induction l1 as [|z l1 IH]; simpl; intros Hs.
  - apply StronglySorted_inv in Hs as [_ Hall].
    rewrite List.Forall_forall in Hall. apply Hall.
    apply in_or_app. right. left. reflexivity.
  - apply StronglySorted_inv in Hs as [Hs _]. apply IH, Hs.
Qed.

(** *** The run-and-insert sort *)

Lemma key_lt_trans (a b c : keyed) :
  good a -> good b -> good c ->
  key_lt a.1 b.1 = true -> key_lt b.1 c.1 = true -> key_lt a.1 c.1 = true.
Proof.
  unfold good. intros Ha Hb Hc Hab Hbc.
  apply key_lt_spec in Hab; auto. apply key_lt_spec in Hbc; auto.
  apply key_lt_spec; auto. unfold lt3 in *.
  destruct a as [[fa ka] ra], b as [[fb kb] rb], c as [[fc kc] rc]. simpl in *.
  destruct fa, fb, fc; intuition (try discriminate); right; split; auto; lia.
Qed.

Lemma key_lt_le_trans (a b c : keyed) :
  good a -> good b -> good c ->
  key_lt a.1 b.1 = true -> key_le b c -> key_lt a.1 c.1 = true.
Proof.
  unfold good, key_le. intros Ha Hb Hc Hab Hbc.
  apply key_lt_spec in Hab; auto. apply key_lt_false in Hbc; auto.
  apply key_lt_spec; auto. unfold lt3 in *.
  destruct a as [[fa ka] ra], b as [[fb kb] rb], c as [[fc kc] rc]. simpl in *.
  destruct fa, fb, fc; intuition (try discriminate); right; split; auto; lia.
Qed.

Lemma run_ascending_split (l : list keyed) (prev : keyed) (run rest : list keyed) :
  run_ascending prev l = (run, rest) ->
  l = run ++ rest /\ Sorted key_le (prev :: run).
Proof.
  revert prev run rest. induction l as [|x l IH]; intros prev run rest H; simpl in H.
  - injection H as <- <-. split; [reflexivity | repeat constructor].
  - destruct (key_lt x.1 prev.1) eqn:Hlt.
    + injection H as <- <-. split; [reflexivity | repeat constructor].
    + destruct (run_ascending x l) as [run' rest'] eqn:Hr. injection H as <- <-.
      destruct (IH _ _ _ Hr) as [-> Hs].
      split; [reflexivity|]. constructor; [exact Hs | constructor; exact Hlt].
Qed.

Lemma run_descending_split (l : list keyed) (prev : keyed) (run rest : list keyed) :
  run_descending prev l = (run, rest) ->
  l = run ++ rest /\ Sorted (fun a b => key_lt b.1 a.1 = true) (prev :: run).
Proof.
  revert prev run rest. induction l as [|x l IH]; intros prev run rest H; simpl in H.
  - injection H as <- <-. split; [reflexivity | repeat constructor].
  - destruct (key_lt x.1 prev.1) eqn:Hlt.
    + destruct (run_descending x l) as [run' rest'] eqn:Hr. injection H as <- <-.
      destruct (IH _ _ _ Hr) as [-> Hs].
      split; [reflexivity|]. constructor; [exact Hs | constructor; exact Hlt].
    + injection H as <- <-. split; [reflexivity | repeat constructor].
Qed.

(** The run found is the start of the list, as it stands or reversed. *)
Lemma count_run_split (l run rest : list keyed) :
  count_run l = (run, rest) ->
  exists pre, l = pre ++ rest /\
    ((run = pre /\ Sorted key_le pre) \/
     (run = rev pre /\ Sorted (fun a b => key_lt b.1 a.1 = true) pre)).
Proof.
  unfold count_run. destruct l as [|x [|y l]]; intros H.
  - injection H as <- <-. exists []. split; [reflexivity|]. left. split; [reflexivity | constructor].
  - injection H as <- <-. exists [x]. split; [reflexivity|]. left.
    split; [reflexivity | repeat constructor].
  - destruct (key_lt y.1 x.1) eqn:Hlt.
    + destruct (run_descending y l) as [run' rest'] eqn:Hr. injection H as <- <-.
      destruct (run_descending_split _ _ _ _ Hr) as [-> Hs].
      exists (x :: y :: run'). split; [reflexivity|]. right.
      split; [reflexivity|]. constructor; [exact Hs | constructor; exact Hlt].
    + destruct (run_ascending y l) as [run' rest'] eqn:Hr. injection H as <- <-.
      destruct (run_ascending_split _ _ _ _ Hr) as [-> Hs].
      exists (x :: y :: run'). split; [reflexivity|]. left.
      split; [reflexivity|]. constructor; [exact Hs | constructor; exact Hlt].
Qed.

Lemma binary_insert_perm (acc : list keyed) (x : keyed) :
  Permutation (binary_insert acc x) (x :: acc).
Proof.
  unfold binary_insert. rewrite <- Permutation_middle.
  rewrite firstn_skipn. reflexivity.
Qed.

Lemma fold_binary_insert_perm (rest acc : list keyed) :
  Permutation (fold_left binary_insert rest acc) (acc ++ rest).
Proof.
  revert acc. induction rest as [|x rest IH]; intros acc; simpl.
  - rewrite app_nil_r. reflexivity.
  - rewrite IH, binary_insert_perm. rewrite <- Permutation_middle. reflexivity.
Qed.

Lemma binary_sort_perm (l : list keyed) : Permutation (binary_sort l) l.
Proof.
  unfold binary_sort. destruct (count_run l) as [run rest] eqn:Hc.
  destruct (count_run_split _ _ _ Hc) as (pre & -> & [[-> _]|[-> _]]);
    rewrite fold_binary_insert_perm; [reflexivity|].
  rewrite <- Permutation_rev. reflexivity.
Qed.

(** Whatever the keys, [list.sort] only reorders. *)
Lemma list_sort_perm (l : list keyed) : Permutation (list_sort l) l.
Proof.
  unfold list_sort.
  destruct (Nat.ltb (List.length l) 64); [apply binary_sort_perm | apply timsort_perm].
Qed.

Lemma sorted_strongly (l : list keyed) :
  Forall good l -> Sorted key_le l -> StronglySorted key_le l.
Proof.
  intros Hg Hs. induction Hs as [|x l Hs IH Hx]; [constructor|].
  inversion Hg as [|? ? Hgx Hgl]; subst. specialize (IH Hgl).
  constructor; [exact IH|].
  destruct Hx as [|y l Hxy]; [constructor|].
  inversion IH as [|? ? _ Hy]; subst. inversion Hgl as [|? ? Hgy Hgl']; subst.
  constructor; [exact Hxy|].
  rewrite List.Forall_forall in Hy, Hgl' |- *. intros z Hz.
  apply (key_le_trans x y z); auto.
Qed.

Lemma descending_strongly (l : list keyed) :
  Forall good l -> Sorted (fun a b => key_lt b.1 a.1 = true) l ->
  StronglySorted (fun a b => key_lt b.1 a.1 = true) l.
Proof.
  intros Hg Hs. induction Hs as [|x l Hs IH Hx]; [constructor|].
  inversion Hg as [|? ? Hgx Hgl]; subst. specialize (IH Hgl).
  constructor; [exact IH|].
  destruct Hx as [|y l Hxy]; [constructor|].
  inversion IH as [|? ? _ Hy]; subst. inversion Hgl as [|? ? Hgy Hgl']; subst.
  constructor; [exact Hxy|].
  rewrite List.Forall_forall in Hy, Hgl' |- *. intros z Hz.
  apply (key_lt_trans z y x); auto.
Qed.

Lemma insert_row_last (x : keyed) (s : list keyed) :
  Forall (fun y => key_lt y.1 x.1 = true) s -> insert_row x s = s ++ [x].
Proof.
  induction 1 as [|y s Hy _ IH]; simpl; [reflexivity|].
  rewrite Hy, IH. reflexivity.
Qed.

Lemma stable_sort_descending (l : list keyed) :
  StronglySorted (fun a b => key_lt b.1 a.1 = true) l -> stable_sort l = rev l.
Proof.
  induction 1 as [|x l _ IH Hx]; [reflexivity|].
  simpl. rewrite IH. apply insert_row_last.
  apply List.Forall_forall. intros y Hy. apply in_rev in Hy.
  rewrite List.Forall_forall in Hx. apply Hx, Hy.
Qed.

Lemma stable_sort_ascending (l : list keyed) :
  StronglySorted key_le l -> stable_sort l = l.
Proof.
  induction 1 as [|x l Hs IH Hx]; [reflexivity|].
  simpl. rewrite IH. destruct l as [|y l']; [reflexivity|].
  simpl. inversion Hx as [|? ? Hxy _]; subst.
  unfold key_le in Hxy. rewrite Hxy. reflexivity.
Qed.

(** On keys that [<] orders the first run is the stable sort of the
    elements it is made of. *)
Lemma count_run_sorted (l run rest : list keyed) :
  Forall good l -> count_run l = (run, rest) ->
  exists pre, l = pre ++ rest /\ run = stable_sort pre.
Proof.
  intros Hg Hc. destruct (count_run_split _ _ _ Hc) as (pre & -> & H).
  exists pre. split; [reflexivity|].
  apply Forall_app in Hg as [Hg _].
  destruct H as [[-> Hs]|[-> Hs]].
  - symmetry. apply stable_sort_ascending, sorted_strongly; assumption.
  - symmetry. apply stable_sort_descending, descending_strongly; assumption.
Qed.

Lemma insert_right_pos (x : keyed) (l : list keyed) :
  insert_right x l = firstn (insert_pos x l) l ++ x :: skipn (insert_pos x l) l.
Proof.
  induction l as [|y l IH]; simpl; [reflexivity|].
  destruct (key_lt x.1 y.1); simpl; [reflexivity|]. rewrite IH. reflexivity.
Qed.

Lemma insert_pos_le (x : keyed) (l : list keyed) : insert_pos x l <= List.length l.
Proof.
  induction l as [|y l IH]; simpl; [lia|]. destruct (key_lt x.1 y.1); simpl; lia.
Qed.

Lemma insert_pos_before (x y : keyed) (l : list keyed) (k : nat) :
  k < insert_pos x l -> nth_error l k = Some y -> key_lt x.1 y.1 = false.
Proof.
  revert k. induction l as [|z l IH]; intros k Hk Hy; simpl in *; [lia|].
  destruct (key_lt x.1 z.1) eqn:Hz; [lia|].
  destruct k as [|k]; simpl in Hy.
  - injection Hy as <-. exact Hz.
  - apply (IH k); [lia | exact Hy].
Qed.

Lemma insert_pos_after (x y : keyed) (l : list keyed) (k : nat) :
  good x -> Forall good l -> StronglySorted key_le l ->
  insert_pos x l <= k -> nth_error l k = Some y -> key_lt x.1 y.1 = true.
Proof.
  intros Hx Hg Hs. revert k.
  induction Hs as [|z l Hs IH Hz]; intros k Hk Hy; [destruct k; discriminate|].
  inversion Hg as [|? ? Hgz Hgl]; subst. simpl in Hk.
  destruct (key_lt x.1 z.1) eqn:Hxz.
  - destruct k as [|k]; simpl in Hy.
    + injection Hy as <-. exact Hxz.
    + apply nth_error_In in Hy.
      rewrite List.Forall_forall in Hz, Hgl.
      apply (key_lt_le_trans x z y); auto.
  - destruct k as [|k]; [lia|]. simpl in Hy. apply (IH Hgl k); [lia | exact Hy].
Qed.

(** In a sorted list the binary search finds the place behind the
    elements that are not greater than the pivot. *)
Lemma bsearch_pos (x : keyed) (acc : list keyed) (fuel l r : nat) :
  good x -> Forall good acc -> StronglySorted key_le acc ->
  l <= insert_pos x acc <= r -> r <= List.length acc -> r - l <= fuel ->
  bsearch fuel x acc l r = insert_pos x acc.
Proof.
  intros Hx Hg Hs. revert l r.
  induction fuel as [|fuel IH]; intros l r Hp Hr Hf; cbn [bsearch]; [lia|].
  destruct (Nat.ltb l r) eqn:Hlr; [|apply Nat.ltb_ge in Hlr; lia].
  apply Nat.ltb_lt in Hlr.
  assert (Hmid : l <= l + (r - l) / 2 < r).
  { split; [lia|]. assert ((r - l) / 2 < r - l) by (apply Nat.div_lt; lia). lia. }
  set (p := l + (r - l) / 2) in *.
  destruct (nth_error acc p) as [y|] eqn:Hy.
  - destruct (key_lt x.1 y.1) eqn:Hxy.
    + apply IH; [|lia|lia]. split; [lia|].
      destruct (Nat.le_gt_cases (insert_pos x acc) p) as [H|H]; [exact H|].
      rewrite (insert_pos_before x y acc _ H Hy) in Hxy. discriminate.
    + apply IH; [|lia|lia]. split; [|lia].
      destruct (Nat.le_gt_cases (insert_pos x acc) p) as [H|H]; [|lia].
      rewrite (insert_pos_after x y acc _ Hx Hg Hs H Hy) in Hxy. discriminate.
  - apply nth_error_None in Hy. lia.
Qed.

Lemma binary_insert_right (acc : list keyed) (x : keyed) :
  good x -> Forall good acc -> StronglySorted key_le acc ->
  binary_insert acc x = insert_right x acc.
Proof.
  intros Hx Hg Hs. unfold binary_insert.
  rewrite (bsearch_pos x acc _ 0 _ Hx Hg Hs); [symmetry; apply insert_right_pos | | lia | lia].
  split; [lia | apply insert_pos_le].
Qed.

Lemma insert_row_right (a x : keyed) (s : list keyed) :
  good a -> good x -> Forall good s ->
  insert_row a (insert_right x s) = insert_right x (insert_row a s).
Proof.
  intros Ha Hx Hs. induction Hs as [|y s Hy Hs IH]; simpl.
  - destruct (key_lt x.1 a.1); reflexivity.
  - destruct (key_lt x.1 y.1) eqn:Hxy; destruct (key_lt y.1 a.1) eqn:Hya; simpl;
      rewrite ?Hxy, ?Hya.
    + rewrite (key_lt_trans x y a Hx Hy Ha Hxy Hya). reflexivity.
    + destruct (key_lt x.1 a.1); simpl; rewrite ?Hxy, ?Hya; reflexivity.
    + rewrite IH. reflexivity.
    + assert (Hxa : key_lt x.1 a.1 = false).
      { apply (key_le_trans a y x Ha Hy Hx); [exact Hya | exact Hxy]. }
      rewrite Hxa. reflexivity.
Qed.

Lemma stable_sort_snoc (pre : list keyed) (x : keyed) :
  good x -> Forall good pre ->
  stable_sort (pre ++ [x]) = insert_right x (stable_sort pre).
Proof.
  intros Hx Hg. induction Hg as [|a pre Ha Hg IH]; [reflexivity|].
  simpl. rewrite IH. apply insert_row_right; auto.
  apply (Permutation_Forall (x := pre)); [symmetry; apply stable_sort_perm | exact Hg].
Qed.

Lemma fold_binary_insert_sorted (rest pre : list keyed) :
  Forall good (pre ++ rest) ->
  fold_left binary_insert rest (stable_sort pre) = stable_sort (pre ++ rest).
Proof.
  revert pre. induction rest as [|x rest IH]; intros pre Hg; simpl.
  - rewrite app_nil_r. reflexivity.
  - assert (Hg' : Forall good ((pre ++ [x]) ++ rest)) by (rewrite <- app_assoc; exact Hg).
    apply Forall_app in Hg as [Hpre Hrest]. inversion Hrest as [|? ? Hx _]; subst.
    rewrite binary_insert_right; auto.
    + rewrite <- stable_sort_snoc by assumption. rewrite (IH _ Hg'), <- app_assoc. reflexivity.
    + apply (Permutation_Forall (x := pre)); [symmetry; apply stable_sort_perm | exact Hpre].
    + apply stable_sort_sorted, Hpre.
Qed.

(** On keys that [<] orders the run-and-insert sort returns the stable
    sorted list. *)
Lemma binary_sort_stable (l : list keyed) :
  Forall good l -> binary_sort l = stable_sort l.
Proof.
  intros Hg. unfold binary_sort. destruct (count_run l) as [run rest] eqn:Hc.
  destruct (count_run_sorted _ _ _ Hg Hc) as (pre & -> & ->).
  apply fold_binary_insert_sorted, Hg.
Qed.

Lemma list_sort_stable (l : list keyed) :
  Forall good l -> list_sort l = stable_sort l.
Proof.
  intros Hg. unfold list_sort.
  destruct (Nat.ltb (List.length l) 64); [apply binary_sort_stable, Hg | apply timsort_stable, Hg].
Qed.

Lemma sort_rows_inv (csv_data sorted : list row) :
  sort_rows csv_data = Ok sorted ->
  exists ks : list keyed,
    Forall keyed_ok ks /\ map snd ks = csv_data /\
    sorted = map snd (list_sort ks).
Proof.
  unfold sort_rows. intros H.
  apply result_bind_ok in H as (ks & Hks & H). injection H as <-.
  exists ks. apply mapM_ok in Hks. split; [|split; [|reflexivity]].
  - induction Hks as [|x a l ks Hx _ IH]; constructor; [|exact IH].
    apply result_bind_ok in Hx as (k & Hk & Hx). injection Hx as <-. exact Hk.
  - induction Hks as [|x a l ks Hx _ IH]; simpl; [reflexivity|].
    apply result_bind_ok in Hx as (k & Hk & Hx). injection Hx as <-.
    simpl. congruence.
Qed.

Lemma sort_rows_perm (csv_data sorted : list row) :
  sort_rows csv_data = Ok sorted -> Permutation csv_data sorted.
Proof.
  intros H. apply sort_rows_inv in H as (ks & _ & <- & ->).
  apply Permutation_map. symmetry. apply list_sort_perm.
Qed.

Lemma sort_key_eff (x : row) (k : bool * spec_float) :
  sort_key x = Ok k ->
  exists e, eff_rating x = Ok e /\ k.1 = String.eqb (in_top_10 x) "NO" /\
            fkey k.2 = fkey (SFopp e) /\ is_nan k.2 = is_nan e.
Proof.
  unfold sort_key, eff_rating. destruct (py_truthy (rating x)).
  - destruct (py_float (rating x)) as [f|]; simpl; [|discriminate].
    intros H. injection H as <-. exists f. simpl. rewrite is_nan_opp. auto.
  - simpl. intros H. injection H as <-. exists (S754_zero false). auto.
Qed.

Lemma nan_rating_false (x : row) (e : spec_float) :
  nan_rating x = false -> eff_rating x = Ok e -> is_nan e = false.
Proof.
  unfold nan_rating. intros H He. rewrite He in H.
  destruct e; [reflexivity | reflexivity | discriminate | reflexivity].
Qed.

Lemma map_snd_before (ks : list keyed) (x y : row) :
  before (map snd ks) x y ->
  exists l1 a l2 b l3, ks = l1 ++ a :: l2 ++ b :: l3 /\ a.2 = x /\ b.2 = y.
Proof.
  intros (r1 & r2 & r3 & H).
  apply map_eq_app in H as (l1 & t1 & -> & _ & H).
  apply map_eq_cons in H as (a & t2 & -> & Ha & H).
  apply map_eq_app in H as (l2 & t3 & -> & _ & H).
  apply map_eq_cons in H as (b & l3 & -> & Hb & _).
  exists l1, a, l2, b, l3. auto.
Qed.

(** Without a NaN among the ratings the rows are in the stable sorted
    order of their keys. *)
Lemma sort_rows_inv_good (csv_data sorted : list row) :
  sort_rows csv_data = Ok sorted ->
  (forall z, In z sorted -> nan_rating z = false) ->
  exists ks : list keyed,
    Forall keyed_ok ks /\ Forall good ks /\ map snd ks = csv_data /\
    sorted = map snd (stable_sort ks).
Proof.
  intros Hsort Hnan.
  apply sort_rows_inv in Hsort as (ks & Hks & Hcsv & ->).
  assert (Hgood : Forall good ks).
  { rewrite List.Forall_forall in Hks |- *. intros a Ha. unfold good.
    destruct (sort_key_eff _ _ (Hks a Ha)) as (e & He & _ & _ & ->).
    apply (nan_rating_false a.2); [|exact He].
    apply Hnan. apply in_map.
    apply (Permutation_in a (Permutation_sym (list_sort_perm ks))). exact Ha. }
  exists ks. rewrite (list_sort_stable ks Hgood). auto.
Qed.

(** The heart of the order of the output: of two rows of a sorted file
    the later has no smaller key. *)
Lemma sorted_pair (csv_data sorted : list row) (x y : row) :
  sort_rows csv_data = Ok sorted ->
  (forall z, In z sorted -> nan_rating z = false) ->
  before sorted x y ->
  exists kx ky, sort_key x = Ok kx /\ sort_key y = Ok ky /\
    is_nan kx.2 = false /\ is_nan ky.2 = false /\ key_lt ky kx = false.
Proof.
  intros Hsort Hnan Hb.
  destruct (sort_rows_inv_good _ _ Hsort Hnan) as (ks & Hks & _ & _ & ->).
  assert (Hks' : Forall keyed_ok (stable_sort ks)).
  { apply (Permutation_Forall (x := ks)); [symmetry; apply stable_sort_perm | exact Hks]. }
  assert (Hgood : Forall good (stable_sort ks)).
  { rewrite List.Forall_forall in Hks' |- *. intros a Ha. unfold good.
    destruct (sort_key_eff _ _ (Hks' a Ha)) as (e & He & _ & _ & ->).
    apply (nan_rating_false a.2); [|exact He].
    apply Hnan. apply in_map. exact Ha. }
  assert (Hgood0 : Forall good ks).
  { apply (Permutation_Forall (x := stable_sort ks)); [apply stable_sort_perm | exact Hgood]. }
  destruct (map_snd_before _ _ _ Hb) as (l1 & a & l2 & b & l3 & Heq & <- & <-).
  pose proof (sorted_before key_le _ l1 l2 l3 a b (stable_sort_sorted ks Hgood0) Heq) as Hle.
  rewrite List.Forall_forall in Hks', Hgood.
  assert (Ha : In a (stable_sort ks)).
  { rewrite Heq. apply in_or_app. right. left. reflexivity. }
  assert (Hb' : In b (stable_sort ks)).
  { rewrite Heq. apply in_or_app. right. right. apply in_or_app. right. left. reflexivity. }
  exists a.1, b.1. repeat split.
  - apply Hks', Ha.
  - apply Hks', Hb'.
  - apply Hgood, Ha.
  - apply Hgood, Hb'.
  - exact Hle.
Qed.

Lemma nan_free_In (l : list row) (x : row) :
  nan_free l = true -> In x l -> nan_rating x = false.
Proof.
  unfold nan_free. rewrite forallb_forall. intros H Hx.
  apply H in Hx. destruct (nan_rating x); [discriminate | reflexivity].
Qed.

Lemma nan_free_good (ks : list keyed) :
  Forall keyed_ok ks -> nan_free (map snd ks) = true -> Forall good ks.
Proof.
  intros Hks Hnan. rewrite List.Forall_forall in Hks |- *. intros a Ha. unfold good.
  destruct (sort_key_eff _ _ (Hks a Ha)) as (e & He & _ & _ & ->).
  apply (nan_rating_false a.2); [|exact He].
  apply (nan_free_In _ _ Hnan), in_map, Ha.
Qed.

(** A run that ends well wrote the sorted source rows. *)
Lemma main_ok_rows (w w' : world) :
  main w = (w', Ok tt) ->
  exists csv_data, source_rows w = Ok csv_data /\ sort_rows csv_data = Ok (data_rows w').
Proof.
  intros H. apply main_ok_inv in H as (apps & tops & ids & csv & sorted & Ha & Ht & Hi & Hc & Hs & ->).
  exists csv. unfold source_rows. rewrite Ha, Ht. simpl. rewrite Hi. simpl.
  rewrite data_rows_final. auto.
Qed.

Lemma lt3_opp (a b : spec_float) :
  lt3 (fkey (SFopp a)) (fkey (SFopp b)) <-> lt3 (fkey b) (fkey a).
Proof.
  rewrite !fkey_opp. destruct (fkey a) as [[a1 a2] a3], (fkey b) as [[b1 b2] b3].
  unfold lt3. simpl. lia.
Qed.

(** C1, amended: in the file a run writes, for ratings without NaN, every
    "YES" row precedes every "NO" row; within a group the rating parsed as
    a float (0 for a falsy rating) never increases; and a row with a falsy
    rating is followed in its group only by rows whose rating is at most 0. *)
Theorem sorted_output (w w' : world) :
  main w = (w', Ok tt) ->
  nan_free (data_rows w') = true ->
  partitioned (data_rows w') /\
  rating_nonincreasing (data_rows w') /\
  falsy_after_positive (data_rows w').
Proof.
  intros Hrun Hnan.
  destruct (main_ok_rows _ _ Hrun) as (csv & _ & Hsort).
  assert (Hpair := fun x y => sorted_pair csv _ x y Hsort (fun z => nan_free_In _ z Hnan)).
  assert (Hni : rating_nonincreasing (data_rows w')).
  { intros x y fx fy Hb Hflag Hx Hy.
    destruct (Hpair x y Hb) as (kx & ky & Hkx & Hky & Hnx & Hny & Hlt).
    apply sort_key_eff in Hkx as (ex & Hex & Hfx & Hkx & Hnx').
    apply sort_key_eff in Hky as (ey & Hey & Hfy & Hky & Hny').
    rewrite Hx in Hex. injection Hex as <-. rewrite Hy in Hey. injection Hey as <-.
    apply key_lt_false in Hlt; auto.
    rewrite Hfx, Hfy, Hflag in Hlt.
    destruct Hlt as [[H1 H2] | [_ Hlt]]; [congruence|].
    rewrite Hkx, Hky, lt3_opp in Hlt.
    apply SFleb_fkey; congruence. }
  split; [|split].
  - intros x y Hb Hx Hy.
    destruct (Hpair x y Hb) as (kx & ky & Hkx & Hky & Hnx & Hny & Hlt).
    apply sort_key_eff in Hkx as (ex & _ & Hfx & _).
    apply sort_key_eff in Hky as (ey & _ & Hfy & _).
    apply key_lt_false in Hlt; auto.
    rewrite Hfx, Hfy, Hx, Hy in Hlt. simpl in Hlt.
    destruct Hlt as [[H1 H2] | [H1 _]]; discriminate.
  - exact Hni.
  - intros x y fy Hb Hflag Hx Hy.
    apply (Hni x y (S754_zero false) fy Hb Hflag); [|exact Hy].
    unfold eff_rating. rewrite Hx. reflexivity.
Qed.

Lemma filter_map_snd (P : row -> bool) (l : list keyed) :
  List.filter P (map snd l) = map snd (List.filter (fun a => P a.2) l).
Proof.
  induction l as [|a l IH]; simpl; [reflexivity|].
  destruct (P a.2); simpl; congruence.
Qed.

(** C9, amended: the sort is stable when no rating is NaN.  The rows of
    one membership flag and one rating key then stand in the file in the
    order of their source records in [all_plant_apps]. *)
Theorem sort_is_stable (w w' : world) (csv_data : list row) (x0 : row) :
  main w = (w', Ok tt) ->
  source_rows w = Ok csv_data ->
  nan_free csv_data = true ->
  List.filter (same_class x0) (data_rows w') = List.filter (same_class x0) csv_data.
Proof.
  intros Hrun Hsrc Hnan.
  destruct (main_ok_rows _ _ Hrun) as (csv & Hsrc' & Hsort).
  rewrite Hsrc in Hsrc'. injection Hsrc' as <-.
  apply sort_rows_inv in Hsort as (ks & Hks & <- & ->).
  rewrite (list_sort_stable ks (nan_free_good ks Hks Hnan)).
  rewrite !filter_map_snd. f_equal.
  apply stable_sort_filter. intros a b Ha Hb Hpa Hpb.
  rewrite List.Forall_forall in Hks.
  destruct (sort_key_eff _ _ (Hks a Ha)) as (ea & Hea & Hfa & Hka & Hna).
  destruct (sort_key_eff _ _ (Hks b Hb)) as (eb & Heb & Hfb & Hkb & Hnb).
  unfold same_class in Hpa, Hpb. rewrite Hea in Hpa. rewrite Heb in Hpb.
  apply andb_true_iff in Hpa as [Hfa' Hpa]. apply andb_true_iff in Hpb as [Hfb' Hpb].
  apply String.eqb_eq in Hfa', Hfb'.
  destruct (eff_rating x0) as [e0|]; [|discriminate].
  pose proof (SFeqb_not_nan _ _ Hpa) as [Hna' Hn0].
  pose proof (SFeqb_not_nan _ _ Hpb) as [Hnb' _].
  apply SFeqb_fkey in Hpa; auto. apply SFeqb_fkey in Hpb; auto.
  apply key_lt_false; try congruence.
  right. split; [congruence|].
  rewrite Hka, Hkb, lt3_opp, Hpa, Hpb.
  unfold lt3. lia.
Qed.

(** ** The membership set and the scan *)

Lemma Forall2_In_l {A B : Type} (R : A -> B -> Prop) (l : list A) (k : list B) (x : A) :
  Forall2 R l k -> In x l -> exists y, In y k /\ R x y.
Proof.
  induction 1 as [|a b l k Hab _ IH]; intros Hin; [destruct Hin|].
  destruct Hin as [->|Hin].
  - exists b. split; [left; reflexivity | exact Hab].
  - destruct (IH Hin) as (y & Hy & HR). exists y. split; [right; exact Hy | exact HR].
Qed.

Lemma Forall2_In_r {A B : Type} (R : A -> B -> Prop) (l : list A) (k : list B) (y : B) :
  Forall2 R l k -> In y k -> exists x, In x l /\ R x y.
Proof.
  induction 1 as [|a b l k Hab _ IH]; intros Hin; [destruct Hin|].
  destruct Hin as [->|Hin].
  - exists a. split; [left; reflexivity | exact Hab].
  - destruct (IH Hin) as (x & Hx & HR). exists x. split; [right; exact Hx | exact HR].
Qed.

Lemma build_top_10_ids_inv (tops : list json) (ids : gset string) :
  build_top_10_ids tops = Ok ids ->
  Forall (fun top => exists tid, subscript top "id" = Ok tid) tops /\
  forall s, s ∈ ids <-> exists top tid, In top tops /\ subscript top "id" = Ok tid /\ py_str tid = s.
Proof.
  unfold build_top_10_ids. intros H.
  apply result_bind_ok in H as (l & Hl & H). injection H as <-.
  apply mapM_ok in Hl. split.
  - induction Hl as [|top s tops l Hs _ IH]; constructor; [|exact IH].
    apply result_bind_ok in Hs as (tid & Htid & _). eauto.
  - intros s. rewrite elem_of_list_to_set, list_elem_of_In. split.
    + intros Hin. destruct (Forall2_In_r _ _ _ _ Hl Hin) as (top & Htop & Hs).
      apply result_bind_ok in Hs as (tid & Htid & Hs). injection Hs as <-.
      exists top, tid. auto.
    + intros (top & tid & Htop & Htid & <-).
      destruct (Forall2_In_l _ _ _ _ Hl Htop) as (s' & Hs' & Hs).
      rewrite Htid in Hs. simpl in Hs. injection Hs as <-. exact Hs'.
Qed.

(** The scan stops at the first entry whose id matches and takes its
    fields from that entry, whatever the variables held before. *)
Lemma scan_finds (tops : list json) (app i : json) :
  subscript app "id" = Ok i ->
  Forall (fun top => exists tid, subscript top "id" = Ok tid) tops ->
  id_in_top tops i ->
  exists top, first_match tops i top /\
              forall vars, scan tops app vars = copy_fields top.
Proof.
  intros Hi Hall. induction Hall as [|t tops [tid Htid] Hall IH]; intros (top & u & Hin & Hu & Heq).
  - destruct Hin.
  - destruct (String.eqb (py_str tid) (py_str i)) eqn:Hm.
    + exists t. split.
      * exists [], tops, tid. apply String.eqb_eq in Hm.
        repeat split; auto; intros ? ? [].
      * intros vars. simpl. rewrite Htid, Hi. simpl. rewrite Hm. reflexivity.
    + assert (Hrest : id_in_top tops i).
      { destruct Hin as [->|Hin].
        - rewrite Htid in Hu. injection Hu as <-.
          apply String.eqb_neq in Hm. contradiction.
        - exists top, u. auto. }
      destruct (IH Hrest) as (top' & (pre & post & tid' & -> & Ht' & He' & Hpre) & Hscan).
      exists top'. split.
      * exists (t :: pre), post, tid'. repeat split; auto.
        intros t0 u0 [<-|Hin0] Hu0.
        -- rewrite Htid in Hu0. injection Hu0 as <-. apply String.eqb_neq. exact Hm.
        -- eapply Hpre; eauto.
      * intros vars. simpl. rewrite Htid, Hi. simpl. rewrite Hm. apply Hscan.
Qed.

Lemma scan_member (tops : list json) (ids : gset string) (app i : json) :
  build_top_10_ids tops = Ok ids ->
  subscript app "id" = Ok i ->
  bool_decide (py_str i ∈ ids) = true ->
  exists top, first_match tops i top /\
              forall vars, scan tops app vars = copy_fields top.
Proof.
  intros Hids Hi Hmem. apply bool_decide_eq_true in Hmem.
  apply build_top_10_ids_inv in Hids as [Hall Hspec].
  apply scan_finds; [exact Hi | exact Hall |].
  apply Hspec in Hmem as (top & tid & Hin & Htid & Heq).
  exists top, tid. auto.
Qed.

(** C10: when the id of a record is in the membership set, the scan over
    [top_10_results] reaches an entry with that id: its result is what the
    first such entry gives, for any initial values of the three variables,
    so the defaults never survive for want of a match. *)
Theorem scan_reaches_match (tops : list json) (ids : gset string) (app i : json) :
  build_top_10_ids tops = Ok ids ->
  subscript app "id" = Ok i ->
  bool_decide (py_str i ∈ ids) = true ->
  (exists top, first_match tops i top /\
               forall vars, scan tops app vars = copy_fields top) /\
  (forall vars r, scan tops app vars = Ok r ->
                  exists top, first_match tops i top /\ copy_fields top = Ok r).
Proof.
  intros Hids Hi Hmem.
  destruct (scan_member tops ids app i Hids Hi Hmem) as (top & Hfirst & Hscan).
  split; [exists top; auto|].
  intros vars r Hr. exists top. rewrite <- (Hscan vars). auto.
Qed.

(** ** One row *)

Lemma annotate_inv (tops : list json) (ids : gset string) (app : json) (x : row) :
  annotate tops ids app = Ok x ->
  subscript app "id" = Ok (app_id x) /\
  subscript app "name" = Ok (app_name x) /\
  subscript app "category" = Ok (category x) /\
  subscript app "rating" = Ok (rating x) /\
  subscript app "one_liner" = Ok (one_liner x) /\
  preview app = Ok (description_preview x) /\
  in_top_10 x = (if bool_decide (py_str (app_id x) ∈ ids) then "YES" else "NO") /\
  (if bool_decide (py_str (app_id x) ∈ ids)
   then scan tops app no_match
   else Ok no_match) = Ok (matched_keywords x, relevance_score x, match_reason x).
Proof.
  unfold annotate. intros H.
  apply result_bind_ok in H as (i & Hi & H).
  apply result_bind_ok in H as ([[mk rs] mr] & Hv & H).
  apply result_bind_ok in H as (a1 & H1 & H).
  apply result_bind_ok in H as (a2 & H2 & H).
  apply result_bind_ok in H as (a3 & H3 & H).
  apply result_bind_ok in H as (a4 & H4 & H).
  apply result_bind_ok in H as (a5 & H5 & H).
  apply result_bind_ok in H as (a6 & H6 & H).
  injection H as <-. simpl.
  assert (a1 = i) as -> by congruence.
  repeat split; assumption.
Qed.

Lemma annotate_flag (tops : list json) (ids : gset string) (app : json) (x : row) :
  build_top_10_ids tops = Ok ids -> annotate tops ids app = Ok x -> flag_correct tops x.
Proof.
  intros Hids Hx. apply build_top_10_ids_inv in Hids as [_ Hspec].
  apply annotate_inv in Hx as (_ & _ & _ & _ & _ & _ & Hflag & _).
  unfold flag_correct, id_in_top. rewrite Hflag.
  destruct (bool_decide (py_str (app_id x) ∈ ids)) eqn:Hm.
  - apply bool_decide_eq_true in Hm. apply Hspec in Hm.
    split; split; intros H; auto; try discriminate. contradiction.
  - apply bool_decide_eq_false in Hm. rewrite Hspec in Hm.
    split; split; intros H; auto; try discriminate. contradiction.
Qed.

Lemma all_strings_map (ks : list string) : all_strings (map JStr ks) = Ok ks.
Proof. induction ks as [|k ks IH]; simpl; [reflexivity|]. rewrite IH. reflexivity. Qed.

Lemma py_join_strings (sep : string) (ks : list string) :
  py_join sep (JList (map JStr ks)) = Ok (String.concat sep ks).
Proof. unfold py_join. simpl. rewrite all_strings_map. reflexivity. Qed.

Lemma annotate_match (tops : list json) (ids : gset string) (app : json) (x : row) :
  build_top_10_ids tops = Ok ids -> annotate tops ids app = Ok x -> match_correct tops x.
Proof.
  intros Hids Hx.
  apply annotate_inv in Hx as (Hi & _ & _ & _ & _ & _ & Hflag & Hvars).
  unfold match_correct. rewrite Hflag.
  destruct (bool_decide (py_str (app_id x) ∈ ids)) eqn:Hm.
  - split; [intros _ | discriminate].
    destruct (scan_member tops ids app _ Hids Hi Hm) as (top & Hfirst & Hscan).
    rewrite Hscan in Hvars. unfold copy_fields in Hvars.
    apply result_bind_ok in Hvars as (kw & Hkw & H).
    apply result_bind_ok in H as (mk & Hmk & H).
    apply result_bind_ok in H as (rs & Hrs & H).
    apply result_bind_ok in H as (mr & Hmr & H).
    injection H as -> -> ->.
    exists top, kw. repeat split; auto.
    intros ks ->. rewrite py_join_strings in Hmk. congruence.
  - split; [discriminate | intros _].
    unfold no_match in Hvars. injection Hvars as <- <- <-. auto.
Qed.

Lemma substring_length_200 (n : nat) (s : string) :
  n <= String.length s -> String.length (substring 0 n s) = n.
Proof.
  revert s. induction n as [|n IH]; intros s Hn.
  - destruct s; reflexivity.
  - destruct s as [|c s]; simpl in *; [lia|]. rewrite IH; lia.
Qed.

Lemma substring_prefix (n : nat) (s : string) :
  exists rest, s = substring 0 n s +:+ rest.
Proof.
  revert s. induction n as [|n IH]; intros s.
  - exists s. destruct s; reflexivity.
  - destruct s as [|c s]; simpl; [exists ""; reflexivity|].
    destruct (IH s) as [rest Hrest]. exists rest.
    change (String c s = String c (substring 0 n s +:+ rest)).
    f_equal. exact Hrest.
Qed.

Lemma annotate_preview (tops : list json) (ids : gset string) (app : json) (x : row) :
  annotate tops ids app = Ok x -> preview_correct app x.
Proof.
  intros Hx. apply annotate_inv in Hx as (_ & _ & _ & _ & _ & Hp & _).
  unfold preview in Hp.
  apply result_bind_ok in Hp as (d & Hd & Hp).
  apply result_bind_ok in Hp as (n & Hn & Hp).
  exists d, n. split; [exact Hd|]. split; [exact Hn|].
  destruct (Nat.ltb 200 n) eqn:Hlt.
  - apply Nat.ltb_lt in Hlt. split; [lia|]. intros _.
    rewrite Hd in Hp. simpl in Hp.
    destruct d as [| | | |s|l|items]; simpl in Hp, Hn; try discriminate.
    injection Hp as <-. injection Hn as <-.
    destruct (substring_prefix 200 s) as [rest Hrest].
    exists s, rest. repeat split; [exact Hrest|]. apply substring_length_200. lia.
  - apply Nat.ltb_ge in Hlt. split; [|lia]. intros _. congruence.
Qed.

(** ** The whole run *)

Lemma main_ok_source (w w' : world) (apps tops : list json) :
  main w = (w', Ok tt) ->
  loaded w "all_plant_apps" = Ok apps ->
  loaded w "top_10_results" = Ok tops ->
  exists ids csv_data,
    build_top_10_ids tops = Ok ids /\
    Forall2 (fun app x => annotate tops ids app = Ok x) apps csv_data /\
    source_rows w = Ok csv_data /\
    Permutation csv_data (data_rows w').
Proof.
  intros H Ha Ht.
  apply main_ok_inv in H as (apps' & tops' & ids & csv & sorted & Ha' & Ht' & Hi & Hc & Hs & ->).
  assert (apps' = apps) as -> by congruence.
  assert (tops' = tops) as -> by congruence.
  exists ids, csv. rewrite data_rows_final.
  split; [exact Hi|]. split; [apply mapM_ok, Hc|]. split.
  - unfold source_rows. rewrite Ha, Ht. simpl. rewrite Hi. exact Hc.
  - apply sort_rows_perm, Hs.
Qed.

(** *** Inputs of the documented shape run to the end *)

Lemma mapM_total {A B : Type} (f : A -> result B) (l : list A) :
  Forall (fun x => exists y, f x = Ok y) l -> exists k, mapM f l = Ok k.
Proof.
  induction 1 as [|x l [y Hy] _ [k Hk]]; simpl.
  - eexists. reflexivity.
  - rewrite Hy. simpl. rewrite Hk. simpl. eexists. reflexivity.
Qed.

Lemma all_strings_total (l : list json) :
  forallb is_str l = true -> exists ss, all_strings l = Ok ss.
Proof.
  induction l as [|v l IH]; simpl; intros H.
  - eexists. reflexivity.
  - apply andb_true_iff in H as [Hv Hl]. destruct v; try discriminate.
    destruct (IH Hl) as [ss ->]. simpl. eexists. reflexivity.
Qed.

Lemma valid_top_runs (top : json) :
  valid_top top = true ->
  (exists tid, subscript top "id" = Ok tid) /\ (exists v, copy_fields top = Ok v).
Proof.
  unfold valid_top, copy_fields, py_get, subscript.
  destruct top as [| | | | | |items]; try discriminate.
  destruct (lookup_key "id" items) as [tid|]; [|discriminate].
  intros H. split; [eauto|].
  destruct (lookup_key "matched_keywords" items) as [kw|]; simpl.
  - destruct kw as [| | | | |l|]; try discriminate.
    destruct (all_strings_total l H) as [ss Hss].
    unfold py_join. simpl. rewrite Hss. simpl.
    destruct (lookup_key "relevance_score" items), (lookup_key "match_reason" items);
      simpl; eauto.
  - unfold py_join. simpl.
    destruct (lookup_key "relevance_score" items), (lookup_key "match_reason" items);
      simpl; eauto.
Qed.

Lemma scan_total (tops : list json) (app i : json) (vars : match_fields) :
  Forall (fun top => valid_top top = true) tops ->
  subscript app "id" = Ok i ->
  exists v, scan tops app vars = Ok v.
Proof.
  intros Hall Hi. induction Hall as [|top tops Htop _ IH]; simpl; [eauto|].
  destruct (valid_top_runs top Htop) as [[tid Htid] Hcopy].
  rewrite Htid, Hi. simpl.
  destruct (String.eqb (py_str tid) (py_str i)); [exact Hcopy | exact IH].
Qed.

Lemma valid_app_annotate (tops : list json) (ids : gset string) (app : json) :
  Forall (fun top => valid_top top = true) tops ->
  valid_app app = true ->
  exists x, annotate tops ids app = Ok x /\ valid_rating (rating x) = true.
Proof.
  intros Htops Happ. unfold valid_app in Happ.
  destruct app as [| | | | | |items]; try discriminate.
  destruct (lookup_key "id" items) as [i|] eqn:Hid; [|discriminate].
  destruct (lookup_key "name" items) as [a2|] eqn:H2; [|discriminate].
  destruct (lookup_key "category" items) as [a3|] eqn:H3; [|discriminate].
  destruct (lookup_key "rating" items) as [r|] eqn:H4; [|discriminate].
  destruct (lookup_key "one_liner" items) as [a5|] eqn:H5; [|discriminate].
  destruct (lookup_key "description" items) as [d|] eqn:H6; [|discriminate].
  destruct d as [| | | |s| |]; try discriminate.
  assert (Hi : subscript (JObj items) "id" = Ok i) by (simpl; rewrite Hid; reflexivity).
  destruct (scan_total tops (JObj items) i no_match Htops Hi) as [v Hv].
  unfold annotate, preview, subscript. rewrite Hid, H2, H3, H4, H5, H6. simpl.
  match goal with
  | |- context [bool_decide ?P] => destruct (bool_decide P)
  end;
    [rewrite Hv|]; simpl;
    destruct (Nat.ltb 200 (String.length s)); simpl; eexists;
    (split; [reflexivity | exact Happ]).
Qed.

Lemma valid_rating_key (x : row) :
  valid_rating (rating x) = true -> exists k, sort_key x = Ok k.
Proof.
  unfold valid_rating, sort_key. destruct (py_truthy (rating x)); simpl.
  - destruct (py_float (rating x)); [simpl; eauto | discriminate].
  - eauto.
Qed.

Lemma valid_input_runs (w : world) :
  valid_input w = true -> exists w', main w = (w', Ok tt).
Proof.
  unfold valid_input. intros H.
  destruct (input_file w) as [| |data] eqn:Hin; try discriminate.
  destruct data as [| | | | | |items]; try discriminate.
  destruct (lookup_key "all_plant_apps" items) as [[| | | | |apps|]|] eqn:Ha; try discriminate.
  destruct (lookup_key "top_10_results" items) as [[| | | | |tops|]|] eqn:Ht; try discriminate.
  apply andb_true_iff in H as [Happs Htops].
  rewrite forallb_forall in Happs, Htops.
  assert (Htops' : Forall (fun top => valid_top top = true) tops)
    by (apply List.Forall_forall; exact Htops).
  assert (Hla : loaded w "all_plant_apps" = Ok apps)
    by (unfold loaded; rewrite Hin; simpl; rewrite Ha; reflexivity).
  assert (Hlt : loaded w "top_10_results" = Ok tops)
    by (unfold loaded; rewrite Hin; simpl; rewrite Ht; reflexivity).
  assert (Hids : exists ids, build_top_10_ids tops = Ok ids).
  { unfold build_top_10_ids.
    destruct (mapM_total (fun app => i ← subscript app "id"; Ok (py_str i)) tops) as [l Hl].
    - apply List.Forall_forall. intros top Htop.
      destruct (valid_top_runs top (Htops top Htop)) as [[tid Htid] _].
      rewrite Htid. simpl. eauto.
    - rewrite Hl. simpl. eauto. }
  destruct Hids as [ids Hids].
  assert (Hcsv : exists csv, mapM (annotate tops ids) apps = Ok csv /\
                             Forall (fun x => valid_rating (rating x) = true) csv).
  { clear Hla Ha. induction apps as [|app apps IH]; simpl.
    - eexists. split; [reflexivity | constructor].
    - destruct (valid_app_annotate tops ids app Htops' (Happs app (or_introl eq_refl)))
        as (x & Hx & Hr).
      destruct IH as (csv & Hcsv & Hall); [intros a Hin'; apply Happs; right; exact Hin'|].
      rewrite Hx. simpl. rewrite Hcsv. simpl.
      eexists. split; [reflexivity | constructor; assumption]. }
  destruct Hcsv as (csv & Hcsv & Hall).
  assert (Hsort : exists sorted, sort_rows csv = Ok sorted).
  { unfold sort_rows.
    match goal with
    | |- context [mapM ?f csv] => destruct (mapM_total f csv) as [l Hl]
    end.
    - apply (Forall_impl _ _ _ Hall). intros x Hx.
      destruct (valid_rating_key x Hx) as [k Hk]. rewrite Hk. simpl. eauto.
    - rewrite Hl. simpl. eauto. }
  destruct Hsort as [sorted Hsort].
  eexists. apply (main_run w apps tops ids csv sorted); assumption.
Qed.

(** C2: the row of a record carries "YES" exactly when the [str] of the
    record's id is the [str] of the id of some entry of [top_10_results],
    and "NO" exactly when it is not; so does every row of the file. *)
Theorem membership_flag (w w' : world) (apps tops : list json) :
  main w = (w', Ok tt) ->
  loaded w "all_plant_apps" = Ok apps ->
  loaded w "top_10_results" = Ok tops ->
  (exists csv_data,
     source_rows w = Ok csv_data /\
     Permutation csv_data (data_rows w') /\
     Forall2 (fun app x => subscript app "id" = Ok (app_id x) /\ flag_correct tops x)
             apps csv_data) /\
  (forall x, In x (data_rows w') -> flag_correct tops x).
Proof.
  intros H Ha Ht.
  destruct (main_ok_source _ _ _ _ H Ha Ht) as (ids & csv & Hi & Hf & Hsrc & Hperm).
  assert (Hall : Forall2 (fun app x => subscript app "id" = Ok (app_id x) /\ flag_correct tops x)
                         apps csv).
  { apply (Forall2_impl _ _ _ _ Hf). intros app x Hx.
    split; [apply annotate_inv in Hx; tauto | eapply annotate_flag; eauto]. }
  split; [exists csv; auto|].
  intros x Hx. apply (Permutation_in x (Permutation_sym Hperm)) in Hx.
  destruct (Forall2_In_r _ _ _ _ Hall Hx) as (app & _ & _ & Hflag). exact Hflag.
Qed.

(** C3: in a row with "YES" the keywords are the ", "-join of the keyword
    list of the first entry of [top_10_results] with the row's id under
    [str], and score and reason are read from that entry; in a row with
    "NO" the three fields are the empty string. *)
Theorem match_fields_copied (w w' : world) (tops : list json) (x : row) :
  main w = (w', Ok tt) ->
  loaded w "top_10_results" = Ok tops ->
  In x (data_rows w') ->
  match_correct tops x.
Proof.
  intros H Ht Hx.
  destruct (main_ok_inv _ _ _ H) as (apps & tops' & _ & _ & _ & Ha & Ht' & _).
  assert (tops' = tops) as -> by congruence.
  destruct (main_ok_source _ _ _ _ H Ha Ht) as (ids & csv & Hi & Hf & _ & Hperm).
  apply (Permutation_in x (Permutation_sym Hperm)) in Hx.
  destruct (Forall2_In_r _ _ _ _ Hf Hx) as (app & _ & Hann).
  eapply annotate_match; eauto.
Qed.

(** C4: the preview of a record is its description when that has at most
    200 characters, and otherwise the first 200 characters, exactly 200,
    followed by "...". *)
Theorem description_preview_cut (w w' : world) (apps : list json) :
  main w = (w', Ok tt) ->
  loaded w "all_plant_apps" = Ok apps ->
  exists csv_data,
    source_rows w = Ok csv_data /\
    Permutation csv_data (data_rows w') /\
    Forall2 preview_correct apps csv_data.
Proof.
  intros H Ha.
  destruct (main_ok_inv _ _ _ H) as (apps' & tops & _ & _ & _ & Ha' & Ht & _).
  destruct (main_ok_source _ _ _ _ H Ha Ht) as (ids & csv & Hi & Hf & Hsrc & Hperm).
  exists csv. split; [exact Hsrc|]. split; [exact Hperm|].
  apply (Forall2_impl _ _ _ _ Hf). intros app x Hx.
  eapply annotate_preview; eauto.
Qed.

(** C5: an input of the documented shape runs to the end, and the file of
    a run that ends holds the header and as many data rows as
    [all_plant_apps] has entries, one row made from each entry. *)
Theorem one_row_per_app (w : world) (apps : list json) :
  loaded w "all_plant_apps" = Ok apps ->
  (valid_input w = true -> exists w', main w = (w', Ok tt)) /\
  (forall w', main w = (w', Ok tt) ->
     output_file w' = Some (Header fieldnames :: map Data (data_rows w')) /\
     List.length (data_rows w') = List.length apps /\
     exists csv_data,
       Permutation csv_data (data_rows w') /\
       Forall2 (fun app x => subscript app "id" = Ok (app_id x)) apps csv_data).
Proof.
  intros Ha. split; [apply valid_input_runs|]. intros w' H.
  destruct (main_ok_inv _ _ _ H) as (apps' & tops & _ & _ & sorted & Ha' & Ht & _ & _ & _ & Hw).
  destruct (main_ok_source _ _ _ _ H Ha Ht) as (ids & csv & Hi & Hf & Hsrc & Hperm).
  split; [|split].
  - rewrite Hw, data_rows_final. reflexivity.
  - rewrite <- (Permutation_length Hperm). symmetry. eapply Forall2_length, Hf.
  - exists csv. split; [exact Hperm|].
    apply (Forall2_impl _ _ _ _ Hf). intros app x Hx.
    apply annotate_inv in Hx. tauto.
Qed.

(** The tests of lines 66, 67 and 71 select the rows of a flag. *)
Lemma filter_is_yes (l : list row) : List.filter is_yes l = rows_flagged "YES" l.
Proof.
  unfold rows_flagged. apply filter_ext. intros x. unfold is_yes.
  destruct (String.eqb_spec (in_top_10 x) "YES") as [Heq|Hne].
  - symmetry. apply bool_decide_eq_true_2, Heq.
  - symmetry. apply bool_decide_eq_false_2, Hne.
Qed.

Lemma filter_is_no (l : list row) : List.filter is_no l = rows_flagged "NO" l.
Proof.
  unfold rows_flagged. apply filter_ext. intros x. unfold is_no.
  destruct (String.eqb_spec (in_top_10 x) "NO") as [Heq|Hne].
  - symmetry. apply bool_decide_eq_true_2, Heq.
  - symmetry. apply bool_decide_eq_false_2, Hne.
Qed.

(** C8: the count printed as "Apps in top 10" is the number of rows of
    the file whose flag is "YES", and the listing that ends the console
    output shows the first 10 of these rows, fewer if there are fewer, in
    file order, numbered from 1. *)
Theorem console_summary (w w' : world) :
  main w = (w', Ok tt) ->
  let yes_rows := rows_flagged "YES" (data_rows w') in
  exists n_all n_top,
    console w' = console w ++
      [Total_found n_all; Top_10_results n_top; Csv_created;
       Apps_in_top_10 (List.length yes_rows);
       Apps_not_in_top_10 (List.length (rows_flagged "NO" (data_rows w')));
       Banner] ++ listing 0 (firstn 10 yes_rows) /\
    List.length (firstn 10 yes_rows) <= 10.
Proof.
  intros H yes_rows. subst yes_rows.
  apply main_ok_inv in H as (apps & tops & _ & _ & sorted & _ & _ & _ & _ & _ & ->).
  rewrite data_rows_final. exists (List.length apps), (List.length tops).
  split; [|rewrite length_firstn; lia].
  unfold final_world. simpl. rewrite filter_is_yes, filter_is_no. reflexivity.
Qed.

(** C7: when loading fails (no input file, no JSON in it, or one of the
    keys [all_plant_apps] and [top_10_results] cannot be read) the run
    raises and the output file is what it was; nothing is printed. *)
Theorem load_failure_writes_nothing (w : world) :
  load_fails w = true ->
  exists e, main w = (w, Raise e).
Proof.
  unfold load_fails, main, mbind, M_bind, json_load, lift.
  destruct (input_file w) as [| |data]; intros H.
  - eauto.
  - eauto.
  - destruct (subscript data "all_plant_apps") as [v|e0]; [|eauto].
    destruct (subscript data "top_10_results") as [v'|e1]; [discriminate|eauto].
Qed.

Lemma lacks_subscript (v : json) (k : string) :
  lacks v k = true -> subscript v k = Raise (KeyError k).
Proof.
  unfold lacks, subscript. destruct v; try discriminate.
  destruct (lookup_key k items); [discriminate | reflexivity].
Qed.

Lemma lacks_get (v : json) (k : string) (d : json) :
  lacks v k = true -> py_get v k d = Ok d.
Proof.
  unfold lacks, py_get. destruct v; try discriminate.
  destruct (lookup_key k items); [discriminate | reflexivity].
Qed.

Lemma annotate_reads (tops : list json) (ids : gset string) (app : json) (x : row) (k : string) :
  annotate tops ids app = Ok x -> In k app_fields -> exists v, subscript app k = Ok v.
Proof.
  intros Hx Hk. apply annotate_inv in Hx as (H1 & H2 & H3 & H4 & H5 & H6 & _).
  unfold preview in H6. apply result_bind_ok in H6 as (d & Hd & _).
  simpl in Hk. destruct Hk as [<-|[<-|[<-|[<-|[<-|[<-|[]]]]]]]; eauto.
Qed.

Lemma lookup_key_app (k k' : string) (d : json) (items : list (string * json)) :
  lookup_key k (items ++ [(k', d)]) =
  match lookup_key k items with
  | Some x => Some x
  | None => if String.eqb k' k then Some d else None
  end.
Proof.
  induction items as [|[k0 v] items IH]; simpl; [reflexivity|].
  destruct (String.eqb k0 k); [reflexivity | exact IH].
Qed.

Lemma subscript_setdefault (k k' : string) (d v : json) :
  String.eqb k k' = false -> subscript (setdefault k d v) k' = subscript v k'.
Proof.
  intros Hk. destruct v as [| | | | | |items]; try reflexivity. unfold setdefault.
  destruct (lookup_key k items) eqn:Hl; [reflexivity|].
  simpl. rewrite lookup_key_app, Hk. destruct (lookup_key k' items); reflexivity.
Qed.

Lemma py_get_setdefault_other (k k' : string) (d d' v : json) :
  String.eqb k k' = false -> py_get (setdefault k d v) k' d' = py_get v k' d'.
Proof.
  intros Hk. destruct v as [| | | | | |items]; try reflexivity. unfold setdefault.
  destruct (lookup_key k items) eqn:Hl; [reflexivity|].
  simpl. rewrite lookup_key_app, Hk. destruct (lookup_key k' items); reflexivity.
Qed.

Lemma py_get_setdefault (k : string) (d v : json) :
  py_get (setdefault k d v) k d = py_get v k d.
Proof.
  destruct v as [| | | | | |items]; try reflexivity. unfold setdefault.
  destruct (lookup_key k items) eqn:Hl; [reflexivity|].
  simpl. rewrite lookup_key_app, Hl, String.eqb_refl. reflexivity.
Qed.

(** Lines 35-37 read an entry and the entry with the defaults written
    out alike. *)
Lemma copy_fields_with_defaults (top : json) :
  copy_fields (with_defaults top) = copy_fields top.
Proof.
  unfold copy_fields, with_defaults.
  rewrite (py_get_setdefault_other "match_reason" "matched_keywords") by reflexivity.
  rewrite (py_get_setdefault_other "relevance_score" "matched_keywords") by reflexivity.
  rewrite py_get_setdefault.
  rewrite (py_get_setdefault_other "match_reason" "relevance_score") by reflexivity.
  rewrite py_get_setdefault.
  rewrite (py_get_setdefault_other "relevance_score" "match_reason") by reflexivity.
  rewrite (py_get_setdefault_other "matched_keywords" "match_reason") by reflexivity.
  rewrite (py_get_setdefault_other "matched_keywords" "relevance_score") by reflexivity.
  rewrite py_get_setdefault.
  reflexivity.
Qed.

Lemma copy_fields_lacking (top : json) :
  lacks top "matched_keywords" = true -> lacks top "relevance_score" = true ->
  lacks top "match_reason" = true -> copy_fields top = Ok no_match.
Proof.
  intros H1 H2 H3. unfold copy_fields.
  rewrite (lacks_get _ _ _ H1), (lacks_get _ _ _ H2), (lacks_get _ _ _ H3). reflexivity.
Qed.

Lemma subscript_id_with_defaults (top : json) :
  subscript (with_defaults top) "id" = subscript top "id".
Proof.
  unfold with_defaults. rewrite !subscript_setdefault by reflexivity. reflexivity.
Qed.

Lemma scan_with_defaults (tops : list json) (app : json) (vars : match_fields) :
  scan (map with_defaults tops) app vars = scan tops app vars.
Proof.
  induction tops as [|top tops IH]; simpl; [reflexivity|].
  rewrite subscript_id_with_defaults, copy_fields_with_defaults, IH. reflexivity.
Qed.

Lemma build_top_10_ids_with_defaults (tops : list json) :
  build_top_10_ids (map with_defaults tops) = build_top_10_ids tops.
Proof.
  unfold build_top_10_ids. f_equal.
  induction tops as [|top tops IH]; simpl; [reflexivity|].
  rewrite subscript_id_with_defaults, IH. reflexivity.
Qed.

Lemma annotate_with_defaults (tops : list json) (ids : gset string) (app : json) :
  annotate (map with_defaults tops) ids app = annotate tops ids app.
Proof. unfold annotate. rewrite scan_with_defaults. reflexivity. Qed.

Lemma mapM_annotate_with_defaults (tops : list json) (ids : gset string) (apps : list json) :
  mapM (annotate (map with_defaults tops) ids) apps = mapM (annotate tops ids) apps.
Proof.
  induction apps as [|app apps IH]; simpl; [reflexivity|].
  rewrite annotate_with_defaults, IH. reflexivity.
Qed.

(** A run ends as the run does in which matched_keywords, relevance_score
    and match_reason are written out, with their defaults, in the entries
    that lack them. *)
Lemma with_defaults_same_outcome (w w2 : world) (apps tops : list json) :
  loaded w "all_plant_apps" = Ok apps ->
  loaded w "top_10_results" = Ok tops ->
  loaded w2 "all_plant_apps" = Ok apps ->
  loaded w2 "top_10_results" = Ok (map with_defaults tops) ->
  output_file w2 = output_file w -> console w2 = console w ->
  same_outcome (main w2) (main w).
Proof.
  intros Ha Ht Ha2 Ht2 Ho Hc.
  rewrite (main_loaded w apps tops Ha Ht), (main_loaded w2 apps _ Ha2 Ht2).
  unfold outcome_of. rewrite build_top_10_ids_with_defaults, length_map.
  destruct (build_top_10_ids tops) as [ids|e]; simpl.
  - rewrite mapM_annotate_with_defaults.
    destruct (mapM (annotate tops ids) apps) as [csv|e]; simpl.
    + destruct (sort_rows csv) as [sorted|e]; unfold same_outcome; simpl;
        rewrite ?Ho, ?Hc; auto.
    + unfold same_outcome; simpl. rewrite Ho, Hc. auto.
  - unfold same_outcome; simpl. rewrite Ho, Hc. auto.
Qed.

(** C6, amended: a record of [all_plant_apps] without one of the keys id,
    name, category, rating, one_liner, description, or an entry of
    [top_10_results] without id, ends the run with an exception before the
    output file is opened.  An entry of [top_10_results] without
    matched_keywords, relevance_score or match_reason does not: lines 35-37
    assign the defaults for what it lacks, and the whole run ends as it
    does on the input in which these defaults are written out, with the
    same value or exception, the same file and the same console. *)
Theorem missing_field_is_fatal (w : world) (apps tops : list json) :
  loaded w "all_plant_apps" = Ok apps ->
  loaded w "top_10_results" = Ok tops ->
  (missing_field apps tops = true ->
   exists w' e, main w = (w', Raise e) /\ output_file w' = output_file w) /\
  (forall top,
     lacks top "matched_keywords" = true -> lacks top "relevance_score" = true ->
     lacks top "match_reason" = true -> copy_fields top = Ok no_match) /\
  (forall top, copy_fields (with_defaults top) = copy_fields top) /\
  (forall w2,
     loaded w2 "all_plant_apps" = Ok apps ->
     loaded w2 "top_10_results" = Ok (map with_defaults tops) ->
     output_file w2 = output_file w -> console w2 = console w ->
     same_outcome (main w2) (main w)).
Proof.
  intros Ha Ht.
  split; [|split; [exact copy_fields_lacking|split; [exact copy_fields_with_defaults|]]].
  - intros Hmiss. destruct (main w) as [w' [[]|e]] eqn:Hrun.
    + exfalso.
      destruct (main_ok_source _ _ _ _ Hrun Ha Ht) as (ids & csv & Hi & Hf & _ & _).
      unfold missing_field in Hmiss. apply orb_true_iff in Hmiss as [Hm|Hm].
      * apply existsb_exists in Hm as (app & Happ & Hm).
        apply existsb_exists in Hm as (k & Hk & Hl).
        destruct (Forall2_In_l _ _ _ _ Hf Happ) as (x & _ & Hx).
        destruct (annotate_reads _ _ _ _ k Hx Hk) as (v & Hv).
        rewrite (lacks_subscript _ _ Hl) in Hv. discriminate.
      * apply existsb_exists in Hm as (top & Htop & Hl).
        apply build_top_10_ids_inv in Hi as [Hall _].
        rewrite List.Forall_forall in Hall. destruct (Hall top Htop) as (tid & Htid).
        rewrite (lacks_subscript _ _ Hl) in Htid. discriminate.
    + exists w', e. split; [reflexivity|]. apply (main_raise_inv _ _ _ Hrun).
  - intros w2 Ha2 Ht2 Ho Hc.
    apply (with_defaults_same_outcome w w2 apps tops); assumption.
Qed.

(** ** Further properties of the script *)

Lemma annotate_flagged (tops : list json) (ids : gset string) (app : json) (x : row) :
  annotate tops ids app = Ok x -> flagged x.
Proof.
  intros Hx. apply annotate_inv in Hx as (_ & _ & _ & _ & _ & _ & Hflag & _).
  unfold flagged. rewrite Hflag. destruct (bool_decide _); auto.
Qed.

Lemma run_flagged (w w' : world) :
  main w = (w', Ok tt) -> Forall flagged (data_rows w').
Proof.
  intros H.
  destruct (main_ok_inv _ _ _ H) as (apps & tops & _ & _ & _ & Ha & Ht & _).
  destruct (main_ok_source _ _ _ _ H Ha Ht) as (ids & csv & _ & Hf & _ & Hperm).
  apply (Permutation_Forall Hperm). apply List.Forall_forall. intros x Hx.
  destruct (Forall2_In_r _ _ _ _ Hf Hx) as (app & _ & Hann).
  eapply annotate_flagged; eauto.
Qed.

Lemma yes_no_split (l : list row) :
  Forall flagged l ->
  List.length (List.filter is_yes l) + List.length (List.filter is_no l) = List.length l.
Proof.
  induction 1 as [|x l [Hx|Hx] _ IH]; simpl; [reflexivity | |];
    unfold is_yes, is_no in *; rewrite Hx; simpl; lia.
Qed.

(** X1: the two counts printed after the load are the numbers of entries
    of [all_plant_apps] and of [top_10_results], and the first is also
    the number of data rows written. *)
Theorem load_counts_printed (w w' : world) (apps tops : list json) :
  main w = (w', Ok tt) ->
  loaded w "all_plant_apps" = Ok apps ->
  loaded w "top_10_results" = Ok tops ->
  (exists rest,
     console w' = console w ++
       [Total_found (List.length apps); Top_10_results (List.length tops)] ++ rest) /\
  List.length (data_rows w') = List.length apps.
Proof.
  intros H Ha Ht.
  destruct (main_ok_source _ _ _ _ H Ha Ht) as (ids & csv & _ & Hf & _ & Hperm).
  apply main_ok_inv in H as (apps' & tops' & _ & _ & sorted & Ha' & Ht' & _ & _ & _ & ->).
  assert (apps' = apps) as -> by congruence.
  assert (tops' = tops) as -> by congruence.
  split.
  - eexists. unfold final_world. simpl. reflexivity.
  - rewrite <- (Permutation_length Hperm). symmetry. eapply Forall2_length, Hf.
Qed.

(** X2: the counts printed as "Apps in top 10" and "Apps not in top 10"
    add up to the count printed as "Total plant apps found": every row is
    counted once, under "YES" or under "NO". *)
Theorem summary_counts_add_up (w w' : world) :
  main w = (w', Ok tt) ->
  Forall flagged (data_rows w') /\
  exists n m a b rest,
    console w' = console w ++
      [Total_found n; Top_10_results m; Csv_created;
       Apps_in_top_10 a; Apps_not_in_top_10 b; Banner] ++ rest /\
    a + b = n.
Proof.
  intros H. pose proof (run_flagged _ _ H) as Hfl. split; [exact Hfl|].
  destruct (main_ok_inv _ _ _ H) as (apps & tops & _ & _ & sorted & Ha & Ht & _ & _ & _ & Hw).
  destruct (main_ok_source _ _ _ _ H Ha Ht) as (ids & csv & _ & Hf & _ & Hperm).
  subst w'. rewrite data_rows_final in Hfl, Hperm.
  do 5 eexists. split; [unfold final_world; simpl; reflexivity|].
  rewrite (yes_no_split _ Hfl), <- (Permutation_length Hperm).
  symmetry. eapply Forall2_length, Hf.
Qed.

(** Whatever is raised, the console has at most the two counts more. *)
Lemma main_raise_console (w w' : world) (e : exn) :
  main w = (w', Raise e) ->
  exists l, console w' = console w ++ l /\ load_lines l.
Proof.
  unfold main. intros H.
  assert (H0 : exists l, console w = console w ++ l /\ load_lines l).
  { exists []. rewrite app_nil_r. split; [reflexivity | left; reflexivity]. }
  apply M_bind_raise in H as [H | (data & w1 & Hload & H)].
  { unfold json_load in H.
    destruct (input_file w) eqn:Hin; try discriminate; injection H as <- _; exact H0. }
  assert (w1 = w) as ->.
  { unfold json_load in Hload.
    destruct (input_file w) eqn:Hin; try discriminate; injection Hload as <- _; auto. }
  clear Hload.
  apply M_bind_raise in H as [H | (all & w2 & Ha & H)];
    [apply lift_inv in H as [-> _]; exact H0 | apply lift_inv in Ha as [-> _]].
  apply M_bind_raise in H as [H | (top & w3 & Ha & H)];
    [apply lift_inv in H as [-> _]; exact H0 | apply lift_inv in Ha as [-> _]].
  apply M_bind_raise in H as [H | (n_all & w4 & Ha & H)];
    [apply lift_inv in H as [-> _]; exact H0 | apply lift_inv in Ha as [-> _]].
  clear H0.
  apply M_bind_raise in H as [H | ([] & w5 & Hp1 & H)];
    [apply print_inv in H as [? _]; discriminate |].
  apply print_inv in Hp1 as (_ & _ & _ & Hc1).
  assert (H1 : exists l, console w5 = console w ++ l /\ load_lines l).
  { exists [Total_found n_all]. split; [exact Hc1 | right; left; eauto]. }
  apply M_bind_raise in H as [H | (n_top & w6 & Ha & H)];
    [apply lift_inv in H as [-> _]; exact H1 | apply lift_inv in Ha as [-> _]].
  clear H1.
  apply M_bind_raise in H as [H | ([] & w7 & Hp2 & H)];
    [apply print_inv in H as [? _]; discriminate |].
  apply print_inv in Hp2 as (_ & _ & _ & Hc2).
  assert (H2 : exists l, console w7 = console w ++ l /\ load_lines l).
  { exists [Total_found n_all; Top_10_results n_top]. split.
    - rewrite Hc2, Hc1, <- app_assoc. reflexivity.
    - right; right; eauto. }
  apply M_bind_raise in H as [H | (tops & w8 & Ha & H)];
    [apply lift_inv in H as [-> _]; exact H2 | apply lift_inv in Ha as [-> _]].
  apply M_bind_raise in H as [H | (ids & w9 & Ha & H)];
    [apply lift_inv in H as [-> _]; exact H2 | apply lift_inv in Ha as [-> _]].
  apply M_bind_raise in H as [H | (apps & w10 & Ha & H)];
    [apply lift_inv in H as [-> _]; exact H2 | apply lift_inv in Ha as [-> _]].
  apply M_bind_raise in H as [H | (csv_data & w11 & Ha & H)];
    [apply lift_inv in H as [-> _]; exact H2 | apply lift_inv in Ha as [-> _]].
  apply M_bind_raise in H as [H | (sorted & w12 & Ha & H)];
    [apply lift_inv in H as [-> _]; exact H2 | apply lift_inv in Ha as [-> _]].
  exfalso. unfold mbind, M_bind, open_w, write_records, print in H. simpl in H.
  rewrite print_apps_run in H. discriminate.
Qed.

(** X3: when lines 7-54 raise, so that there are no rows to write, the
    run ends with an exception before line 57: it has touched neither
    file and has printed nothing but, at most, the two counts of lines 14
    and 15; "CSV file created" is not printed. *)
Theorem failure_writes_nothing (w : world) (e : exn) :
  rows_to_write w = Raise e ->
  exists w' e',
    main w = (w', Raise e') /\
    output_file w' = output_file w /\
    input_file w' = input_file w /\
    (exists l, console w' = console w ++ l /\ load_lines l) /\
    ~ In Csv_created (skipn (List.length (console w)) (console w')).
Proof.
  intros Hrows. destruct (main w) as [w' [[]|e']] eqn:H.
  - exfalso. destruct (main_ok_rows _ _ H) as (csv & Hsrc & Hsort).
    unfold rows_to_write in Hrows. rewrite Hsrc in Hrows. simpl in Hrows.
    rewrite Hsort in Hrows. discriminate.
  - exists w', e'. split; [reflexivity|].
    destruct (main_raise_inv _ _ _ H) as [Hi Ho].
    destruct (main_raise_console _ _ _ H) as (l & Hc & Hl).
    split; [exact Ho|]. split; [exact Hi|]. split; [eauto|].
    rewrite Hc, skipn_app, Nat.sub_diag, skipn_all. simpl.
    destruct Hl as [->|[[n ->]|(n & m & ->)]]; simpl; intuition discriminate.
Qed.

(** X4: a second run on the world the first one left succeeds as well,
    writes the same file again and prints the same lines again: the file
    does not depend on what the output path held before. *)
Theorem rerun_same_file (w w1 : world) :
  main w = (w1, Ok tt) ->
  exists w2,
    main w1 = (w2, Ok tt) /\
    output_file w2 = output_file w1 /\
    console w2 = console w1 ++ skipn (List.length (console w)) (console w1).
Proof.
  intros H.
  apply main_ok_inv in H as (apps & tops & ids & csv & sorted & Ha & Ht & Hi & Hc & Hs & ->).
  eexists. split; [|split].
  - apply (main_run _ apps tops ids csv sorted); auto.
  - reflexivity.
  - unfold final_world at 1 3 4. simpl.
    rewrite skipn_app, Nat.sub_diag, skipn_all. simpl. reflexivity.
Qed.

(** X5: the exception of a failed load is the one of the first failing
    step of lines 7-12: [FileNotFoundError], [JSONDecodeError],
    [TypeError] for a document that is no dict, [KeyError] for
    all_plant_apps and then for top_10_results; the world stays as it was. *)
Theorem load_error_raised (w : world) (e : exn) :
  load_error w = Some e ->
  main w = (w, Raise e) /\ load_fails w = true.
Proof.
  unfold load_error, load_fails, main, mbind, M_bind, json_load, lift, subscript.
  destruct (input_file w) as [| |data]; intros H.
  - injection H as <-. auto.
  - injection H as <-. auto.
  - destruct data as [| | | | | |items]; try (injection H as <-; auto).
    destruct (lookup_key "all_plant_apps" items); [|injection H as <-; auto].
    destruct (lookup_key "top_10_results" items); [discriminate | injection H as <-; auto].
Qed.

Lemma sort_key_valid (x : row) (k : bool * spec_float) :
  sort_key x = Ok k -> valid_rating (rating x) = true.
Proof.
  unfold sort_key, valid_rating. destruct (py_truthy (rating x)); simpl; [|reflexivity].
  destruct (py_float (rating x)); simpl; [reflexivity | discriminate].
Qed.

Lemma sort_rows_valid (csv sorted : list row) (x : row) :
  sort_rows csv = Ok sorted -> In x csv -> valid_rating (rating x) = true.
Proof.
  intros Hs Hx. apply sort_rows_inv in Hs as (ks & Hks & <- & _).
  apply in_map_iff in Hx as (a & <- & Ha).
  rewrite List.Forall_forall in Hks. eapply sort_key_valid, Hks, Ha.
Qed.

(** X6: a record whose rating is truthy and is rejected by [float] (a
    non-empty list or dict, a string that is no number, an int beyond the
    floats) ends the run with an exception, at the sort at the latest,
    and the output file is not touched. *)
Theorem unsortable_rating_is_fatal (w : world) (apps : list json) :
  loaded w "all_plant_apps" = Ok apps ->
  existsb unsortable apps = true ->
  exists w' e, main w = (w', Raise e) /\ output_file w' = output_file w.
Proof.
  intros Ha Hbad. destruct (main w) as [w' [[]|e]] eqn:Hrun.
  - exfalso.
    destruct (main_ok_inv _ _ _ Hrun) as (apps' & tops & ids & csv & sorted & Ha' & _ & _ & Hc & Hs & _).
    assert (apps' = apps) as -> by congruence.
    apply existsb_exists in Hbad as (app & Happ & Hbad).
    apply mapM_ok in Hc. destruct (Forall2_In_l _ _ _ _ Hc Happ) as (x & Hx & Hann).
    apply annotate_inv in Hann as (_ & _ & _ & Hr & _).
    unfold unsortable in Hbad. rewrite Hr in Hbad.
    rewrite (sort_rows_valid _ _ _ Hs Hx) in Hbad. discriminate.
  - exists w', e. split; [reflexivity|]. apply (main_raise_inv _ _ _ Hrun).
Qed.

Lemma preview_ok_description (app d p : json) :
  subscript app "description" = Ok d -> preview app = Ok p -> bad_description d = false.
Proof.
  unfold preview. intros Hd. rewrite Hd. simpl.
  destruct d as [| | | |s|l|items]; simpl; try discriminate; try reflexivity.
  - destruct (Nat.ltb 200 (List.length l)); [discriminate | reflexivity].
  - destruct (Nat.ltb 200 (List.length items)); [discriminate | reflexivity].
Qed.

(** X7: a record whose description is neither a string nor a list or
    dict of at most 200 elements (null, a number, a longer list) ends the
    run with an exception and the output file is not touched. *)
Theorem bad_description_is_fatal (w : world) (apps : list json) :
  loaded w "all_plant_apps" = Ok apps ->
  existsb uncuttable apps = true ->
  exists w' e, main w = (w', Raise e) /\ output_file w' = output_file w.
Proof.
  intros Ha Hbad. destruct (main w) as [w' [[]|e]] eqn:Hrun.
  - exfalso.
    destruct (main_ok_inv _ _ _ Hrun) as (apps' & tops & ids & csv & sorted & Ha' & _ & _ & Hc & _).
    assert (apps' = apps) as -> by congruence.
    apply existsb_exists in Hbad as (app & Happ & Hbad).
    apply mapM_ok in Hc. destruct (Forall2_In_l _ _ _ _ Hc Happ) as (x & Hx & Hann).
    apply annotate_inv in Hann as (_ & _ & _ & _ & _ & Hp & _).
    unfold uncuttable in Hbad.
    destruct (subscript app "description") as [d|] eqn:Hd; [|discriminate].
    rewrite (preview_ok_description _ _ _ Hd Hp) in Hbad. discriminate.
  - exists w', e. split; [reflexivity|]. apply (main_raise_inv _ _ _ Hrun).
Qed.

Lemma length_append (a b : string) :
  String.length (a +:+ b) = String.length a + String.length b.
Proof.
  induction a as [|c a IH]; [reflexivity|].
  change (String.length (String c (a +:+ b)) = S (String.length a) + String.length b).
  simpl. rewrite IH. reflexivity.
Qed.

(** X8: the preview of a string description is always computed, and its
    length is that of the description up to 200 characters and 203 beyond:
    never more than 203, but up to two more than a description of 201 or
    202 characters has itself. *)
Theorem preview_length (app : json) (s : string) :
  subscript app "description" = Ok (JStr s) ->
  exists p,
    preview app = Ok (JStr p) /\
    String.length p = (if Nat.ltb 200 (String.length s) then 203 else String.length s) /\
    String.length p <= 203.
Proof.
  intros Hd. unfold preview. rewrite Hd. simpl.
  destruct (Nat.ltb 200 (String.length s)) eqn:Hlt; simpl.
  - apply Nat.ltb_lt in Hlt. eexists. split; [reflexivity|].
    rewrite length_append, substring_length_200 by lia. simpl. lia.
  - apply Nat.ltb_ge in Hlt. eexists. split; [reflexivity|]. lia.
Qed.

(** X9: name, category, rating and one_liner of a row are the values of
    its record, unchanged: the rating is written as it was read, also
    when the sort took it for 0. *)
Theorem fields_copied (w w' : world) (apps : list json) :
  main w = (w', Ok tt) ->
  loaded w "all_plant_apps" = Ok apps ->
  exists csv_data,
    source_rows w = Ok csv_data /\
    Permutation csv_data (data_rows w') /\
    Forall2 copied apps csv_data.
Proof.
  intros H Ha.
  destruct (main_ok_inv _ _ _ H) as (apps' & tops & _ & _ & _ & _ & Ht & _).
  destruct (main_ok_source _ _ _ _ H Ha Ht) as (ids & csv & _ & Hf & Hsrc & Hperm).
  exists csv. split; [exact Hsrc|]. split; [exact Hperm|].
  apply (Forall2_impl _ _ _ _ Hf). intros app x Hx.
  apply annotate_inv in Hx. unfold copied. tauto.
Qed.

Lemma filter_unmatched (l : list row) :
  Forall unmatched l -> List.filter is_yes l = [] /\ List.filter is_no l = l.
Proof.
  induction 1 as [|x l (Hx & _) _ [IH1 IH2]]; simpl; [auto|].
  unfold is_yes, is_no in *. rewrite Hx. simpl. rewrite IH2. auto.
Qed.

(** X10: with an empty [top_10_results] every row is flagged "NO" with
    its three match fields empty, the count of apps in the top 10 is 0
    and the listing under the banner is empty. *)
Theorem no_top_results (w w' : world) :
  main w = (w', Ok tt) ->
  loaded w "top_10_results" = Ok [] ->
  Forall unmatched (data_rows w') /\
  exists n,
    console w' = console w ++
      [Total_found n; Top_10_results 0; Csv_created;
       Apps_in_top_10 0; Apps_not_in_top_10 (List.length (data_rows w')); Banner].
Proof.
  intros H Ht.
  destruct (main_ok_inv _ _ _ H) as (apps & tops & _ & _ & sorted & Ha & Ht' & _ & _ & _ & Hw).
  assert (tops = []) as -> by congruence.
  destruct (main_ok_source _ _ _ _ H Ha Ht) as (ids & csv & Hi & Hf & _ & Hperm).
  assert (ids = ∅) as -> by (injection Hi as <-; reflexivity).
  assert (Hall : Forall unmatched (data_rows w')).
  { apply (Permutation_Forall Hperm). apply List.Forall_forall. intros x Hx.
    destruct (Forall2_In_r _ _ _ _ Hf Hx) as (app & _ & Hann).
    apply annotate_inv in Hann as (_ & _ & _ & _ & _ & _ & Hflag & Hvars).
    match type of Hflag with
    | context [bool_decide ?P] => destruct (bool_decide P) eqn:Hm
    end.
    - apply bool_decide_eq_true in Hm. exfalso. exact (not_elem_of_empty _ Hm).
    - unfold no_match in Hvars. injection Hvars as H1 H2 H3.
      unfold unmatched. auto. }
  split; [exact Hall|].
  destruct (filter_unmatched _ Hall) as [Hy Hn].
  subst w'. rewrite data_rows_final in Hy, Hn |- *.
  exists (List.length apps). unfold final_world. simpl. rewrite Hy, Hn. reflexivity.
Qed.

(** X11: with an empty [all_plant_apps] and a top 10 whose entries have
    ids the run succeeds, the file holds the header alone, whatever it
    held before, and the three app counts printed are 0. *)
Theorem no_apps (w : world) (tops : list json) (ids : gset string) :
  loaded w "all_plant_apps" = Ok [] ->
  loaded w "top_10_results" = Ok tops ->
  build_top_10_ids tops = Ok ids ->
  exists w',
    main w = (w', Ok tt) /\
    output_file w' = Some [Header fieldnames] /\
    console w' = console w ++
      [Total_found 0; Top_10_results (List.length tops); Csv_created;
       Apps_in_top_10 0; Apps_not_in_top_10 0; Banner].
Proof.
  intros Ha Ht Hi. eexists. split; [|split].
  - apply (main_run w [] tops ids [] []); auto.
  - reflexivity.
  - reflexivity.
Qed.

(** The keyed rows behind a sorted file without NaN: keyed as the sort
    keys them, and in order. *)
Lemma run_sorted (csv sorted : list row) :
  sort_rows csv = Ok sorted ->
  nan_free sorted = true ->
  exists ks : list keyed,
    Forall keyed_ok ks /\ Forall good ks /\
    StronglySorted key_le ks /\ sorted = map snd ks.
Proof.
  intros Hs Hnan.
  destruct (sort_rows_inv_good _ _ Hs (fun z => nan_free_In _ z Hnan))
    as (ks & Hks & Hgood & _ & ->).
  exists (stable_sort ks). repeat split.
  - apply (Permutation_Forall (x := ks)); [symmetry; apply stable_sort_perm | exact Hks].
  - apply (Permutation_Forall (x := ks)); [symmetry; apply stable_sort_perm | exact Hgood].
  - apply stable_sort_sorted, Hgood.
Qed.

Lemma stable_sort_sorted_id (l : list keyed) :
  StronglySorted key_le l -> stable_sort l = l.
Proof.
  induction 1 as [|x l Hs IH Hx]; [reflexivity|].
  simpl. rewrite IH. destruct l as [|y l']; [reflexivity|].
  simpl. inversion Hx as [|? ? Hxy _]; subst.
  unfold key_le in Hxy. rewrite Hxy. reflexivity.
Qed.

Lemma mapM_keyed (ks : list keyed) :
  Forall keyed_ok ks ->
  mapM (fun x => k ← sort_key x; Ok (k, x)) (map snd ks) = Ok ks.
Proof.
  induction 1 as [|a ks Ha _ IH]; [reflexivity|].
  simpl. unfold keyed_ok in Ha. rewrite Ha. simpl. rewrite IH. simpl.
  destruct a as [k x]. reflexivity.
Qed.

(** X12: the file of a run is a fixed point of the sort: for ratings
    without NaN, sorting its rows again by line 54 returns them in the
    same order. *)
Theorem sort_rows_idempotent (w w' : world) :
  main w = (w', Ok tt) ->
  nan_free (data_rows w') = true ->
  sort_rows (data_rows w') = Ok (data_rows w').
Proof.
  intros H Hnan. destruct (main_ok_rows _ _ H) as (csv & _ & Hs).
  destruct (run_sorted _ _ Hs Hnan) as (ks & Hok & Hgood & Hsorted & ->).
  unfold sort_rows.
  match goal with
  | |- context [mapM ?f (map snd ks)] =>
      change (mapM f (map snd ks)) with (mapM (fun x => k ← sort_key x; Ok (k, x)) (map snd ks))
  end.
  rewrite (mapM_keyed _ Hok). simpl.
  rewrite (list_sort_stable _ Hgood), (stable_sort_sorted_id _ Hsorted). reflexivity.
Qed.






Lemma run_nonincreasing (w w' : world) :
  main w = (w', Ok tt) -> nan_free (data_rows w') = true ->
  rating_nonincreasing (data_rows w').
Proof.
  intros Hrun Hnan x y fx fy Hb Hflag Hx Hy.
  destruct (main_ok_rows _ _ Hrun) as (csv & _ & Hsort).
  destruct (sorted_pair csv _ x y Hsort (fun z => nan_free_In _ z Hnan) Hb)
    as (kx & ky & Hkx & Hky & Hnx & Hny & Hlt).
  apply sort_key_eff in Hkx as (ex & Hex & Hfx & Hkx & Hnx').
  apply sort_key_eff in Hky as (ey & Hey & Hfy & Hky & Hny').
  rewrite Hx in Hex. injection Hex as <-. rewrite Hy in Hey. injection Hey as <-.
  apply key_lt_false in Hlt; auto.
  rewrite Hfx, Hfy, Hflag in Hlt.
  destruct Hlt as [[H1 H2] | [_ Hlt]]; [congruence|].
  rewrite Hkx, Hky, lt3_opp in Hlt.
  apply SFleb_fkey; congruence.
Qed.

Lemma nonnegative_nan_free (l : list row) :
  nonnegative_ratings l = true -> nan_free l = true.
Proof.
  unfold nonnegative_ratings, nan_free. rewrite !forallb_forall.
  intros H x Hx. specialize (H x Hx). unfold nan_rating.
  destruct (eff_rating x) as [f|]; [|reflexivity].
  destruct f; try reflexivity. discriminate.
Qed.

(** X15: when every rating is ordered as a number that is at least 0, a
    row with a falsy rating is followed in its group only by rows whose
    rating is ordered as 0: the falsy ratings then do sort last, tied
    with the zeros. *)
Theorem falsy_last_when_nonnegative (w w' : world) :
  main w = (w', Ok tt) ->
  nonnegative_ratings (data_rows w') = true ->
  falsy_then_zero (data_rows w').
Proof.
  intros Hrun Hnn x y fy Hb Hflag Hx Hy.
  pose proof (nonnegative_nan_free _ Hnn) as Hnan.
  assert (Hle : SFleb fy (S754_zero false) = true).
  { apply (run_nonincreasing _ _ Hrun Hnan x y (S754_zero false) fy Hb Hflag); [|exact Hy].
    unfold eff_rating. rewrite Hx. reflexivity. }
  assert (Hin : In y (data_rows w')).
  { destruct Hb as (l1 & l2 & l3 & ->).
    apply in_or_app. right. right. apply in_or_app. right. left. reflexivity. }
  assert (Hge : SFleb (S754_zero false) fy = true).
  { unfold nonnegative_ratings in Hnn. rewrite forallb_forall in Hnn.
    specialize (Hnn y Hin). rewrite Hy in Hnn. exact Hnn. }
  assert (Hn : is_nan fy = false) by (destruct fy; [reflexivity | reflexivity | discriminate | reflexivity]).
  apply SFleb_fkey in Hle; auto. apply SFleb_fkey in Hge; auto.
  apply SFeqb_fkey; auto.
  unfold lt3 in *. destruct (fkey fy) as [[a b] c]. simpl in *.
  assert (a = 0 /\ b = 0 /\ c = 0)%Z as (-> & -> & ->) by lia. reflexivity.
Qed.

Lemma scan_first_entry (tops : list json) (app i top : json) (vars : match_fields) :
  subscript app "id" = Ok i ->
  Forall (fun t => exists tid, subscript t "id" = Ok tid) tops ->
  first_entry tops i = Some top ->
  scan tops app vars = copy_fields top.
Proof.
  intros Hi Hall. unfold first_entry.
  induction Hall as [|t tops [tid Htid] _ IH]; simpl; [discriminate|].
  rewrite Htid, Hi. simpl.
  destruct (String.eqb (py_str tid) (py_str i)); [|exact IH].
  intros H. injection H as <-. reflexivity.
Qed.

(** X16: a record matching, as first entry with its id, an entry of
    [top_10_results] whose keywords [join] cannot join (null, a number, a
    list holding a non-string) ends the run with an exception and the
    output file is not touched. *)
Theorem bad_keywords_is_fatal (w : world) (apps tops : list json) :
  loaded w "all_plant_apps" = Ok apps ->
  loaded w "top_10_results" = Ok tops ->
  existsb (unjoinable tops) apps = true ->
  exists w' e, main w = (w', Raise e) /\ output_file w' = output_file w.
Proof.
  intros Ha Ht Hbad. destruct (main w) as [w' [[]|e]] eqn:Hrun.
  - exfalso.
    destruct (main_ok_source _ _ _ _ Hrun Ha Ht) as (ids & csv & Hi & Hf & _ & _).
    apply existsb_exists in Hbad as (app & Happ & Hbad).
    destruct (Forall2_In_l _ _ _ _ Hf Happ) as (x & _ & Hann).
    apply annotate_inv in Hann as (Hid & _ & _ & _ & _ & _ & _ & Hvars).
    unfold unjoinable in Hbad. rewrite Hid in Hbad.
    destruct (first_entry tops (app_id x)) as [top|] eqn:Hfirst; [|discriminate].
    destruct (build_top_10_ids_inv _ _ Hi) as [Hall Hspec].
    assert (Hmem : py_str (app_id x) ∈ ids).
    { apply Hspec. unfold first_entry in Hfirst. apply find_some in Hfirst as [Hin Hp].
      destruct (subscript top "id") as [tid|] eqn:Htid; [|discriminate].
      apply String.eqb_eq in Hp. exists top, tid. auto. }
    match type of Hvars with
    | context [bool_decide ?P] => destruct (bool_decide P) eqn:Hm
    end.
    + rewrite (scan_first_entry _ _ _ _ _ Hid Hall Hfirst) in Hvars.
      rewrite Hvars in Hbad. discriminate.
    + apply bool_decide_eq_false in Hm. contradiction.
  - exists w', e. split; [reflexivity|]. apply (main_raise_inv _ _ _ Hrun).
Qed.

(** X17: a document whose [all_plant_apps] or [top_10_results] is not a
    list ends the run with an exception and no file, except when it is
    the empty dict or the empty string, which the loops take for an empty
    collection. *)
Theorem collections_must_be_lists (w : world) :
  malformed_collections w = true ->
  exists w' e, main w = (w', Raise e) /\ output_file w' = output_file w.
Proof.
  intros Hbad. destruct (main w) as [w' [[]|e]] eqn:Hrun.
  - exfalso.
    destruct (main_ok_inv _ _ _ Hrun) as (apps & tops & ids & csv & sorted & Ha & Ht & Hi & Hc & _).
    unfold malformed_collections in Hbad. unfold loaded in Ha, Ht.
    destruct (input_file w) as [| |data]; try discriminate.
    destruct (subscript data "all_plant_apps") as [a|]; [|discriminate].
    destruct (subscript data "top_10_results") as [t|]; [|discriminate].
    simpl in Ha, Ht. apply orb_true_iff in Hbad as [Hbad|Hbad].
    + destruct a as [| | | |[|c s]|l|[|[k v] items]]; try discriminate;
        simpl in Ha; injection Ha as <-; simpl in Hc; discriminate.
    + destruct t as [| | | |[|c s]|l|[|[k v] items]]; try discriminate;
        simpl in Ht; injection Ht as <-; simpl in Hi; discriminate.
  - exists w', e. split; [reflexivity|]. apply (main_raise_inv _ _ _ Hrun).
Qed.

End Script.

(** ** The properties on the examples *)

#[local] Existing Instance plain_builtins.
#[local] Existing Instance stable_list_sort.

(** The example of section 8 of the specification: the app in the top 10
    comes first, with its keywords joined. *)
Example run_of_example : main ex_world = (ex_final, Ok tt).
Proof. vm_compute. reflexivity. Qed.

Example run_of_mixed : main mixed_world = (mixed_final, Ok tt).
Proof. vm_compute. reflexivity. Qed.

Example run_of_long : main long_world = (long_final, Ok tt).
Proof. vm_compute. reflexivity. Qed.

Example run_of_many : main many_world = (many_final, Ok tt).
Proof. vm_compute. reflexivity. Qed.

Example run_of_unrated :
  main unrated_world =
    ({| input_file := input_file unrated_world;
        output_file := None;
        console := [Total_found 1; Top_10_results 1] |}, Raise (KeyError "rating")).
Proof. vm_compute. reflexivity. Qed.

Example str_of_ids : py_str (JInt 2) = py_str (JStr "2").
Proof. reflexivity. Qed.

Example join_of_string : py_join ", " (JStr "abc") = Ok "a, b, c".
Proof. reflexivity. Qed.

Example float_of_large_int : float_of_int (2 ^ 1024) = Raise OverflowError.
Proof. vm_compute. reflexivity. Qed.

Example float_of_tie : float_of_int (2 ^ 53 + 1) = float_of_int (2 ^ 53).
Proof. vm_compute. reflexivity. Qed.

Lemma sorted_output_witness :
  partitioned (data_rows mixed_final) /\
  rating_nonincreasing (data_rows mixed_final) /\
  falsy_after_positive (data_rows mixed_final).
Proof.
  apply (sorted_output mixed_world mixed_final); vm_compute; reflexivity.
Defined.

(** C1 as stated fails: with ratings -1.0 and null the row of the null
    rating is written first, before the row rated -1.0 of its group. *)
Lemma falsy_rating_not_last :
  main neg_world = (neg_final, Ok tt) /\
  nan_free (data_rows neg_final) = true /\
  ~ (partitioned (data_rows neg_final) /\
     rating_nonincreasing (data_rows neg_final) /\
     falsy_last (data_rows neg_final)).
Proof.
  split; [vm_compute; reflexivity|]. split; [vm_compute; reflexivity|].
  intros (_ & _ & Hlast).
  assert (Hb : before (data_rows neg_final) null_row neg_row).
  { exists [], [], []. reflexivity. }
  specialize (Hlast null_row neg_row Hb eq_refl eq_refl).
  discriminate Hlast.
Qed.

(** C9 as stated fails: with the ratings 1, 1, 1, 1, NaN, 9, 3, 9 the
    two rows rated 9 are written in the order opposite to that of their
    records. *)
Lemma nan_rating_breaks_stability :
  main nan_world = (nan_final, Ok tt) /\
  source_rows nan_world = Ok nan_rows /\
  nan_free nan_rows = false /\
  same_class (nan_row 6 (JInt 9)) (nan_row 8 (JInt 9)) = true /\
  List.filter (same_class (nan_row 6 (JInt 9))) nan_rows =
    [nan_row 6 (JInt 9); nan_row 8 (JInt 9)] /\
  List.filter (same_class (nan_row 6 (JInt 9))) (data_rows nan_final) =
    [nan_row 8 (JInt 9); nan_row 6 (JInt 9)] /\
  List.filter (same_class (nan_row 6 (JInt 9))) (data_rows nan_final) <>
  List.filter (same_class (nan_row 6 (JInt 9))) nan_rows.
Proof.
  repeat (split; [vm_compute; reflexivity|]).
  vm_compute. discriminate.
Qed.

Lemma sort_is_stable_witness :
  List.filter (same_class row_A) (data_rows mixed_final) =
  List.filter (same_class row_A) [row_A; row_N; row_B; row_C].
Proof.
  apply (sort_is_stable mixed_world mixed_final); vm_compute; reflexivity.
Defined.

Lemma scan_reaches_match_witness :
  (exists top, first_match ex_tops (JInt 2) top /\
               forall vars, scan ex_tops app_B vars = copy_fields top) /\
  (forall vars r, scan ex_tops app_B vars = Ok r ->
                  exists top, first_match ex_tops (JInt 2) top /\ copy_fields top = Ok r).
Proof.
  apply (scan_reaches_match ex_tops ex_ids app_B (JInt 2)); vm_compute; reflexivity.
Defined.

Lemma membership_flag_witness :
  (exists csv_data,
     source_rows mixed_world = Ok csv_data /\
     Permutation csv_data (data_rows mixed_final) /\
     Forall2 (fun app x => subscript app "id" = Ok (app_id x) /\ flag_correct ex_tops x)
             mixed_apps csv_data) /\
  (forall x, In x (data_rows mixed_final) -> flag_correct ex_tops x).
Proof.
  apply (membership_flag mixed_world mixed_final mixed_apps ex_tops); vm_compute; reflexivity.
Defined.

Lemma match_fields_copied_witness : match_correct ex_tops row_B.
Proof.
  apply (match_fields_copied ex_world ex_final ex_tops row_B).
  - vm_compute; reflexivity.
  - vm_compute; reflexivity.
  - simpl. left. reflexivity.
Defined.

Lemma description_preview_cut_witness :
  exists csv_data,
    source_rows long_world = Ok csv_data /\
    Permutation csv_data (data_rows long_final) /\
    Forall2 preview_correct long_apps csv_data.
Proof.
  apply (description_preview_cut long_world long_final long_apps); vm_compute; reflexivity.
Defined.

Lemma one_row_per_app_witness :
  valid_input ex_world = true /\
  main ex_world = (ex_final, Ok tt) /\
  output_file ex_final = Some (Header fieldnames :: map Data (data_rows ex_final)) /\
  List.length (data_rows ex_final) = List.length ex_apps.
Proof.
  destruct (one_row_per_app ex_world ex_apps eq_refl) as [_ Hrows].
  assert (Hrun : main ex_world = (ex_final, Ok tt)) by (vm_compute; reflexivity).
  destruct (Hrows ex_final Hrun) as (Hfile & Hlen & _).
  split; [vm_compute; reflexivity|]. split; [exact Hrun|]. split; [exact Hfile | exact Hlen].
Defined.

Lemma console_summary_witness :
  main listed_world = (listed_final, Ok tt) /\
  rows_flagged "YES" (data_rows listed_final) = listed_yes /\
  rows_flagged "NO" (data_rows listed_final) = [unlisted_row] /\
  (let yes_rows := rows_flagged "YES" (data_rows listed_final) in
   exists n_all n_top,
     console listed_final = console listed_world ++
       [Total_found n_all; Top_10_results n_top; Csv_created;
        Apps_in_top_10 (List.length yes_rows);
        Apps_not_in_top_10 (List.length (rows_flagged "NO" (data_rows listed_final)));
        Banner] ++ listing 0 (firstn 10 yes_rows) /\
     List.length (firstn 10 yes_rows) <= 10).
Proof.
  assert (Hrun : main listed_world = (listed_final, Ok tt)) by (vm_compute; reflexivity).
  split; [exact Hrun|]. split; [vm_compute; reflexivity|]. split; [vm_compute; reflexivity|].
  apply (console_summary listed_world listed_final Hrun).
Defined.

Lemma load_failure_writes_nothing_witness :
  exists e, main keyless_world = (keyless_world, Raise e).
Proof.
  apply (load_failure_writes_nothing keyless_world); reflexivity.
Defined.

Lemma missing_field_is_fatal_witness :
  (missing_field unrated_apps ex_tops = true /\
   exists w' e, main unrated_world = (w', Raise e) /\
                output_file w' = output_file unrated_world) /\
  (missing_top_field bare_tops = true /\
   map with_defaults bare_tops = filled_tops /\
   copy_fields (JObj [("id", JInt 1)]) = Ok no_match /\
   same_outcome (main filled_world) (main bare_world)).
Proof.
  split.
  - split; [reflexivity|].
    apply (missing_field_is_fatal unrated_world unrated_apps ex_tops);
      vm_compute; reflexivity.
  - split; [reflexivity|]. split; [reflexivity|].
    destruct (missing_field_is_fatal bare_world ex_apps bare_tops eq_refl eq_refl)
      as (_ & Hlack & _ & Hsame).
    split; [apply Hlack; reflexivity | apply Hsame; reflexivity].
Defined.

(** C6 as stated fails: an entry of the top 10 without matched_keywords,
    relevance_score and match_reason does not stop the run; the row of the
    matching app is written with the three fields empty. *)
Lemma missing_top_fields_not_fatal :
  loaded bare_world "top_10_results" = Ok bare_tops /\
  missing_top_field bare_tops = true /\
  main bare_world = (bare_final, Ok tt) /\
  ~ halts bare_world.
Proof.
  split; [reflexivity|]. split; [reflexivity|].
  assert (Hrun : main bare_world = (bare_final, Ok tt)) by (vm_compute; reflexivity).
  split; [exact Hrun|].
  intros (w' & e & H). rewrite Hrun in H. discriminate H.
Qed.

(** ** The further properties on the examples *)

Lemma load_counts_printed_witness :
  (exists rest,
     console mixed_final = console mixed_world ++
       [Total_found (List.length mixed_apps); Top_10_results (List.length ex_tops)] ++ rest) /\
  List.length (data_rows mixed_final) = List.length mixed_apps.
Proof.
  apply (load_counts_printed mixed_world mixed_final mixed_apps ex_tops);
    vm_compute; reflexivity.
Defined.

Lemma summary_counts_add_up_witness :
  Forall flagged (data_rows mixed_final) /\
  exists n m a b rest,
    console mixed_final = console mixed_world ++
      [Total_found n; Top_10_results m; Csv_created;
       Apps_in_top_10 a; Apps_not_in_top_10 b; Banner] ++ rest /\
    a + b = n.
Proof.
  apply (summary_counts_add_up mixed_world mixed_final); vm_compute; reflexivity.
Defined.

Lemma failure_writes_nothing_witness :
  rows_to_write unrated_world = Raise (KeyError "rating") /\
  exists w' e',
    main unrated_world = (w', Raise e') /\
    output_file w' = output_file unrated_world /\
    input_file w' = input_file unrated_world /\
    (exists l, console w' = console unrated_world ++ l /\ load_lines l) /\
    ~ In Csv_created (skipn (List.length (console unrated_world)) (console w')).
Proof.
  split; [vm_compute; reflexivity|].
  apply (failure_writes_nothing unrated_world (KeyError "rating")).
  vm_compute; reflexivity.
Defined.

Lemma rerun_same_file_witness :
  exists w2,
    main ex_final = (w2, Ok tt) /\
    output_file w2 = output_file ex_final /\
    console w2 = console ex_final ++ skipn (List.length (console ex_world)) (console ex_final).
Proof.
  apply (rerun_same_file ex_world ex_final); vm_compute; reflexivity.
Defined.

Lemma load_error_raised_witness :
  main keyless_world = (keyless_world, Raise (KeyError "top_10_results")) /\
  load_fails keyless_world = true.
Proof.
  apply (load_error_raised keyless_world); reflexivity.
Defined.

Lemma unsortable_rating_is_fatal_witness :
  exists w' e, main listrated_world = (w', Raise e) /\
               output_file w' = output_file listrated_world.
Proof.
  apply (unsortable_rating_is_fatal listrated_world listrated_apps);
    vm_compute; reflexivity.
Defined.

Lemma bad_description_is_fatal_witness :
  exists w' e, main undescribed_world = (w', Raise e) /\
               output_file w' = output_file undescribed_world.
Proof.
  apply (bad_description_is_fatal undescribed_world undescribed_apps);
    vm_compute; reflexivity.
Defined.

Lemma preview_length_witness :
  exists p,
    preview (app_record (JInt 1) (JInt 4) "A" long_description) = Ok (JStr p) /\
    String.length p =
      (if Nat.ltb 200 (String.length long_description)
       then 203 else String.length long_description) /\
    String.length p <= 203.
Proof.
  apply (preview_length (app_record (JInt 1) (JInt 4) "A" long_description) long_description).
  reflexivity.
Defined.

Lemma fields_copied_witness :
  exists csv_data,
    source_rows mixed_world = Ok csv_data /\
    Permutation csv_data (data_rows mixed_final) /\
    Forall2 copied mixed_apps csv_data.
Proof.
  apply (fields_copied mixed_world mixed_final mixed_apps); vm_compute; reflexivity.
Defined.

Lemma no_top_results_witness :
  Forall unmatched (data_rows untopped_final) /\
  exists n,
    console untopped_final = console untopped_world ++
      [Total_found n; Top_10_results 0; Csv_created;
       Apps_in_top_10 0; Apps_not_in_top_10 (List.length (data_rows untopped_final)); Banner].
Proof.
  apply (no_top_results untopped_world untopped_final); vm_compute; reflexivity.
Defined.

Lemma no_apps_witness :
  exists w',
    main empty_world = (w', Ok tt) /\
    output_file w' = Some [Header fieldnames] /\
    console w' = console empty_world ++
      [Total_found 0; Top_10_results (List.length ex_tops); Csv_created;
       Apps_in_top_10 0; Apps_not_in_top_10 0; Banner].
Proof.
  apply (no_apps empty_world ex_tops ex_ids); vm_compute; reflexivity.
Defined.

Lemma sort_rows_idempotent_witness :
  sort_rows (data_rows mixed_final) = Ok (data_rows mixed_final).
Proof.
  apply (sort_rows_idempotent mixed_world mixed_final); vm_compute; reflexivity.
Defined.


Lemma falsy_last_when_nonnegative_witness :
  nonnegative_ratings (data_rows mixed_final) = true /\
  falsy_then_zero (data_rows mixed_final).
Proof.
  split; [vm_compute; reflexivity|].
  apply (falsy_last_when_nonnegative mixed_world mixed_final); vm_compute; reflexivity.
Defined.

Lemma bad_keywords_is_fatal_witness :
  exists w' e, main nullkw_world = (w', Raise e) /\
               output_file w' = output_file nullkw_world.
Proof.
  apply (bad_keywords_is_fatal nullkw_world ex_apps nullkw_tops); vm_compute; reflexivity.
Defined.

Lemma collections_must_be_lists_witness :
  exists w' e, main dict_world = (w', Raise e) /\ output_file w' = output_file dict_world.
Proof.
  apply (collections_must_be_lists dict_world); vm_compute; reflexivity.
Defined.
